(** * 3D box packing: a shallow embedding of [3d-box-visualiser.py]

    The packing logic of the program ([check_overlap],
    [pack_recursive_helper], [check_fit], [generate_containers]) and the
    combination search of [PackerApp.run_packing] are embedded as Rocq
    functions; the properties of the specification are then proved about
    them.

    Python integers are unbounded, so they are [Z] (or [N] where the program
    only ever builds naturals).  A Python [set] is a [gset]; the order in
    which a [set] is iterated is an implementation detail of the
    interpreter, so it is a parameter of the development ([SetOrder]). *)

From Stdlib Require Import ZArith QArith Lia.
From stdpp Require Import base list gmap sets strings pretty sorting.

Open Scope Z_scope.

(** ** Data model *)

(** A tuple of three integers: the dimensions [(l, w, h)] or a point
    [(x, y, z)]. *)
Abbreviation triple := (Z * Z * Z)%type.

(** Iteration order of a Python [set] of 3-tuples.  Nothing but "every
    element once" is known about it. *)
Class SetOrder := {
  set_iter : gset triple → list triple;
  set_iter_perm : ∀ s, set_iter s ≡ₚ elements s
}.

(** One admissible order: the one of stdpp's [elements]. *)
Definition elements_order : SetOrder :=
  {| set_iter := elements; set_iter_perm := λ s, reflexivity (elements s) |}.

(** [Box = namedtuple('Box', ['name','l','w','h','weight','volume','color_hex'])].
    Boxes are only built by [parse_box_string], from groups matched by
    [\d+]: their numeric fields are naturals. *)
Record Box := mkBox {
  box_name : string;
  box_l : N;
  box_w : N;
  box_h : N;
  box_weight : N;
  box_volume : N;
  box_color_hex : string
}.

(** [Container = namedtuple('Container', ['l','w','h','volume'])]. *)
Record Container := mkContainer {
  con_l : Z;
  con_w : Z;
  con_h : Z;
  con_volume : Z
}.

(** [PlacedBox = namedtuple('PlacedBox', ['box','x','y','z','l','w','h'])]. *)
Record PlacedBox := mkPlacedBox {
  pb_box : Box;
  pb_x : Z;
  pb_y : Z;
  pb_z : Z;
  pb_l : Z;
  pb_w : Z;
  pb_h : Z
}.

(** The body of [parse_box_string] once the regular expression has matched
    and the four groups were converted by [int]. *)
Definition box_of_match (nm : string) (l w h wt : N) (color : string) : Box :=
  {| box_name := nm; box_l := l; box_w := w; box_h := h; box_weight := wt;
     box_volume := (l * w * h)%N; box_color_hex := color |}.

(** ** Python built-ins used by the program *)

(** [sorted] is stable; [lt y x] says that [y] goes strictly before [x]. *)
Fixpoint py_insert {A} (lt : A → A → bool) (x : A) (l : list A) : list A :=
  match l with
  | [] => [x]
  | y :: l' => if lt y x then y :: py_insert lt x l' else x :: y :: l'
  end.

Fixpoint py_sorted {A} (lt : A → A → bool) (l : list A) : list A :=
  match l with
  | [] => []
  | x :: l' => py_insert lt x (py_sorted lt l')
  end.

(** Order of Python tuples of three integers: lexicographic. *)
Definition tuple_lt (a b : triple) : bool :=
  let '(a1, a2, a3) := a in
  let '(b1, b2, b3) := b in
  (a1 <? b1) || ((a1 =? b1) && ((a2 <? b2) || ((a2 =? b2) && (a3 <? b3)))).

(** [itertools.permutations(dims)] for a 3-tuple, in the order of itertools. *)
Definition permutations3 (dims : triple) : list triple :=
  let '(a, b, c) := dims in
  [(a, b, c); (a, c, b); (b, a, c); (b, c, a); (c, a, b); (c, b, a)].

(** A [for] loop whose body either goes on to the next element ([None]) or
    returns a value ([Some]). *)
Fixpoint first_some {A B} (f : A → option B) (l : list A) : option B :=
  match l with
  | [] => None
  | x :: l' => match f x with Some r => Some r | None => first_some f l' end
  end.

(** ** Packing logic *)

(** The test of one already placed box inside the loop of [check_overlap]. *)
Definition overlaps (p : PlacedBox) (x y z l w h : Z) : bool :=
  let no_overlap_x := (x + l <=? pb_x p) || (x >=? pb_x p + pb_l p) in
  let no_overlap_y := (y + w <=? pb_y p) || (y >=? pb_y p + pb_w p) in
  let no_overlap_z := (z + h <=? pb_z p) || (z >=? pb_z p + pb_h p) in
  negb (no_overlap_x || no_overlap_y || no_overlap_z).

Fixpoint check_overlap (placed_boxes : list PlacedBox) (x y z l w h : Z) : bool :=
  match placed_boxes with
  | [] => false
  | p_box :: rest =>
      if overlaps p_box x y z l w h then true
      else check_overlap rest x y z l w h
  end.

Definition box_dims (b : Box) : triple :=
  (Z.of_N (box_l b), Z.of_N (box_w b), Z.of_N (box_h b)).

(** [set(itertools.permutations(dims))]. *)
Definition rotations (b : Box) : gset triple :=
  list_to_set (permutations3 (box_dims b)).

Definition anchor_points (placed_boxes : list PlacedBox) : list triple :=
  (0, 0, 0) ::
  flat_map (λ p, [(pb_x p + pb_l p, pb_y p, pb_z p);
                  (pb_x p, pb_y p + pb_w p, pb_z p);
                  (pb_x p, pb_y p, pb_z p + pb_h p)]) placed_boxes.

Section Packing.
Context `{SetOrder}.

(** [sorted(list(set(anchor_points)))]. *)
Definition unique_anchors (placed_boxes : list PlacedBox) : list triple :=
  py_sorted tuple_lt (set_iter (list_to_set (anchor_points placed_boxes))).

(** The body of the two nested loops of [pack_recursive_helper], for the
    anchor [(ax, ay, az)] and the rotation [(l, w, h)]; [recurse] is the
    recursive call on the remaining boxes. *)
Definition try_place (recurse : list PlacedBox → option (list PlacedBox))
    (container : Container) (placed_boxes : list PlacedBox)
    (box_to_place : Box) (anchor rot : triple) : option (list PlacedBox) :=
  let '(ax, ay, az) := anchor in
  let '(l, w, h) := rot in
  if (ax + l >? con_l container) || (ay + w >? con_w container)
     || (az + h >? con_h container) then None
  else if check_overlap placed_boxes ax ay az l w h then None
  else
    let new_placed_box :=
      {| pb_box := box_to_place; pb_x := ax; pb_y := ay; pb_z := az;
         pb_l := l; pb_w := w; pb_h := h |} in
    recurse (placed_boxes ++ [new_placed_box]).

Fixpoint pack_recursive_helper (boxes_left : list Box) (container : Container)
    (placed_boxes : list PlacedBox) : option (list PlacedBox) :=
  match boxes_left with
  | [] => Some placed_boxes
  | box_to_place :: remaining_boxes =>
      first_some (λ anchor,
        first_some
          (try_place (pack_recursive_helper remaining_boxes container)
             container placed_boxes box_to_place anchor)
          (set_iter (rotations box_to_place)))
        (unique_anchors placed_boxes)
  end.

(** The quick check of [check_fit]: does some rotation of the box fit the
    container's three bounds? *)
Definition can_fit_at_all (container : Container) (b : Box) : bool :=
  existsb (λ '(l, w, h),
             (l <=? con_l container) && (w <=? con_w container)
             && (h <=? con_h container))
          (set_iter (rotations b)).

(** The loop over [sorted_boxes] with its early [return None]. *)
Fixpoint quick_check (sorted_boxes : list Box) (container : Container) : bool :=
  match sorted_boxes with
  | [] => true
  | b :: rest => if can_fit_at_all container b then quick_check rest container
                 else false
  end.

(** [sorted(boxes_to_pack, key=lambda b: b.volume, reverse=True)]. *)
Definition sort_by_volume (boxes_to_pack : list Box) : list Box :=
  py_sorted (λ y x, (box_volume x <? box_volume y)%N) boxes_to_pack.

Definition check_fit (boxes_to_pack : list Box) (container : Container)
    : option (list PlacedBox) :=
  let sorted_boxes := sort_by_volume boxes_to_pack in
  if quick_check sorted_boxes container
  then pack_recursive_helper sorted_boxes container []
  else None.

(** What [check_fit] does that can be observed besides its result: the call
    of [pack_recursive_helper] of line 106, with its three arguments. *)
Inductive fit_event :=
| PackCall (boxes_left : list Box) (container : Container)
    (placed_boxes : list PlacedBox).

(** [check_fit] again, lines 89 to 106, together with the calls of
    [pack_recursive_helper] it made: none when the loop of the quick check
    returns [None] at line 103, one when line 106 is reached. *)
Definition check_fit_traced (boxes_to_pack : list Box) (container : Container)
    : option (list PlacedBox) * list fit_event :=
  let sorted_boxes := sort_by_volume boxes_to_pack in
  if quick_check sorted_boxes container
  then (pack_recursive_helper sorted_boxes container [],
        [PackCall sorted_boxes container []])
  else (None, []).
End Packing.


(** ** Container generation *)

(** [range(start, stop, step)] for a positive [step]: CPython computes the
    length [1 + (stop - 1 - start) // step] when [start < stop], and the
    [i]-th element is [start + i * step]. *)
Definition py_range (start stop step : Z) : list Z :=
  if start <? stop
  then (λ i, start + i * step) <$> seqZ 0 (1 + (stop - 1 - start) `div` step)
  else [].

(** [tuple(sorted([l, w, h]))] *)
Definition sorted_dims (l w h : Z) : triple :=
  match py_sorted Z.ltb [l; w; h] with
  | [d0; d1; d2] => (d0, d1, d2)
  | _ => (l, w, h)
  end.

(** The innermost loop, over [h], with its [break]. *)
Fixpoint h_loop (total_sum l w : Z) (hs : list Z) (valid_containers : gset triple)
    : gset triple :=
  match hs with
  | [] => valid_containers
  | h :: hs' =>
      if l + w + h <=? total_sum
      then h_loop total_sum l w hs' (valid_containers ∪ {[sorted_dims l w h]})
      else valid_containers
  end.

(** The three nested loops: the set [valid_containers] when they end. *)
Definition container_dims (total_sum : Z) (valid_steps : list Z) : gset triple :=
  fold_left (λ valid_containers l,
    fold_left (λ valid_containers w,
      h_loop total_sum l w valid_steps valid_containers)
      valid_steps valid_containers)
    valid_steps ∅.

Definition container_of_dims (d : triple) : Container :=
  let '(d0, d1, d2) := d in
  {| con_l := d0; con_w := d1; con_h := d2; con_volume := d0 * d1 * d2 |}.

Definition generate_containers `{SetOrder}
    (total_sum max_dim min_dim increment : Z) : list Container :=
  if increment <=? 0 then []
  else
    let valid_steps := py_range min_dim (max_dim + 1) increment in
    container_of_dims <$> set_iter (container_dims total_sum valid_steps).

(** The same enumeration without the [break]: every [(l, w, h)] is tested. *)
Fixpoint h_loop_naive (total_sum l w : Z) (hs : list Z)
    (valid_containers : gset triple) : gset triple :=
  match hs with
  | [] => valid_containers
  | h :: hs' =>
      if l + w + h <=? total_sum
      then h_loop_naive total_sum l w hs' (valid_containers ∪ {[sorted_dims l w h]})
      else h_loop_naive total_sum l w hs' valid_containers
  end.

Definition container_dims_naive (total_sum : Z) (valid_steps : list Z)
    : gset triple :=
  fold_left (λ valid_containers l,
    fold_left (λ valid_containers w,
      h_loop_naive total_sum l w valid_steps valid_containers)
      valid_steps valid_containers)
    valid_steps ∅.

Definition generate_containers_naive `{SetOrder}
    (total_sum max_dim min_dim increment : Z) : list Container :=
  if increment <=? 0 then []
  else
    let valid_steps := py_range min_dim (max_dim + 1) increment in
    container_of_dims <$> set_iter (container_dims_naive total_sum valid_steps).

(** ** Combination search ([PackerApp.run_packing]) *)

(** [max_weight = float(...)]: a Python float is not-a-number, an infinity,
    or a (dyadic) rational. *)
Inductive pyfloat :=
| FNaN
| FPosInf
| FNegInf
| FFinite (q : Q).

(** [n > f] for an integer [n] and a float [f]; Python compares the two
    exactly, and every comparison with not-a-number is false. *)
Definition int_gt_float (n : Z) (f : pyfloat) : bool :=
  match f with
  | FNaN => false
  | FPosInf => false
  | FNegInf => true
  | FFinite q => negb (Qle_bool (inject_Z n) q)
  end.

(** [itertools.combinations(l, k)]: the [k]-element subsequences of [l], in
    lexicographic order of positions. *)
Fixpoint combinations {A} (l : list A) (k : nat) : list (list A) :=
  match k, l with
  | O, _ => [[]]
  | S _, [] => []
  | S k', x :: l' => ((x ::.) <$> combinations l' k') ++ combinations l' k
  end.

(** [sep.join(l)] *)
Fixpoint join (sep : string) (l : list string) : string :=
  match l with
  | [] => ""
  | [x] => x
  | x :: l' => x +:+ sep +:+ join sep l'
  end.

(** An entry of [self.successful_fits]. *)
Record fit := mkFit {
  fit_name : string;
  fit_container : Container;
  fit_boxes : list PlacedBox
}.

(** What the search does that can be observed: a line given to [self.log],
    and a call of [check_fit]. *)
Inductive event :=
| Log (message : string)
| CheckFit (boxes_to_pack : list Box) (container : Container).

(** The variables the search updates. *)
Record state := mkState {
  found_solutions : nat;
  successful_fits : list fit;
  history : list event
}.

Definition emit (e : event) (st : state) : state :=
  {| found_solutions := found_solutions st;
     successful_fits := successful_fits st;
     history := history st ++ [e] |}.

Definition log (message : string) : state → state := emit (Log message).

Definition total_weight (box_combination : list Box) : Z :=
  foldr (λ b acc, Z.of_N (box_weight b) + acc) 0 box_combination.

Definition total_volume (box_combination : list Box) : Z :=
  foldr (λ b acc, Z.of_N (box_volume b) + acc) 0 box_combination.

Section Search.
Context `{SetOrder}.

(** What happens when [check_fit] gave [placed_boxes_list] for
    [container]: lines 491 to 500. *)
Definition fit_found (box_combination : list Box) (container : Container)
    (placed_boxes_list : list PlacedBox) (st : state) : state :=
  let found_solutions := S (found_solutions st) in
  let box_names := join ", " (box_name <$> box_combination) in
  let fit_name :=
    "Fit #" +:+ pretty found_solutions +:+ ": (" +:+ box_names +:+ ") in "
    +:+ pretty (con_l container) +:+ "x" +:+ pretty (con_w container)
    +:+ "x" +:+ pretty (con_h container) in
  let st := log ("Found Fit #" +:+ pretty found_solutions +:+ "!") st in
  let st := log ("  Container: " +:+ pretty (con_l container) +:+ " x "
                 +:+ pretty (con_w container) +:+ " x "
                 +:+ pretty (con_h container) +:+ " mm") st in
  {| found_solutions := found_solutions;
     successful_fits :=
       successful_fits st ++
       [{| fit_name := fit_name; fit_container := container;
           fit_boxes := placed_boxes_list |}];
     history := history st |}.

(** [for container in self.containers: ...], with its [continue] and its
    [break]. *)
Fixpoint container_loop (box_combination : list Box) (total_volume : Z)
    (containers : list Container) (st : state) : state :=
  match containers with
  | [] => st
  | container :: rest =>
      if total_volume >? con_volume container
      then container_loop box_combination total_volume rest st
      else
        let st := emit (CheckFit box_combination container) st in
        match check_fit box_combination container with
        | Some placed_boxes_list =>
            fit_found box_combination container placed_boxes_list st
        | None => container_loop box_combination total_volume rest st
        end
  end.

(** The body of [for box_combination in itertools.combinations(...)]. *)
Definition combination_step (max_weight : pyfloat)
    (containers : list Container) (st : state) (box_combination : list Box)
    : state :=
  if int_gt_float (total_weight box_combination) max_weight then st
  else container_loop box_combination (total_volume box_combination)
         containers st.

(** The body of [for k in range(2, len(input_boxes) + 1)]. *)
Definition k_step (max_weight : pyfloat) (containers : list Container)
    (input_boxes : list Box) (st : state) (k : nat) : state :=
  let st := log ("--- Checking combinations of " +:+ pretty k +:+ " boxes ---") st in
  fold_left (combination_step max_weight containers)
    (combinations input_boxes k) st.

(** Lines 476 to 501. *)
Definition search (max_weight : pyfloat) (containers : list Container)
    (input_boxes : list Box) (st : state) : state :=
  fold_left (k_step max_weight containers input_boxes)
    (seq 2 (length input_boxes + 1 - 2)) st.

Definition rule_line : string := "------------------------------".

(** [run_packing], from the point where the five rules were read
    (line 445) and up to the end of the search (line 504).
    [input_boxes] is the list built from the form by lines 453 to 464. *)
Definition run_packing (total_sum max_dim min_dim increment : Z)
    (max_weight : pyfloat) (input_boxes : list Box) : state :=
  let st := {| found_solutions := 0; successful_fits := []; history := [] |} in
  let st := log "Starting packing process..." st in
  let containers := generate_containers total_sum max_dim min_dim increment in
  match containers with
  | [] => log "Error: No valid containers generated with these rules." st
  | _ :: _ =>
      if (length input_boxes <? 2)%nat
      then log "Error: Need at least 2 valid boxes to run a combination check." st
      else
        let st := log ("Checking " +:+ pretty (length input_boxes)
                       +:+ " boxes against " +:+ pretty (length containers)
                       +:+ " container types...") st in
        let st := log rule_line st in
        let st := search max_weight containers input_boxes st in
        let st := log rule_line st in
        log ("Search complete. Found " +:+ pretty (found_solutions st)
             +:+ " valid packing solutions.") st
  end.
End Search.

(** * Vocabulary of the specification *)

(** ** Placement *)

(** The extents of [p] and [q] intersect with positive length on the three
    axes at once: they share a positive volume. *)
Definition share_volume (p q : PlacedBox) : Prop :=
  Z.max (pb_x p) (pb_x q) < Z.min (pb_x p + pb_l p) (pb_x q + pb_l q) ∧
  Z.max (pb_y p) (pb_y q) < Z.min (pb_y p + pb_w p) (pb_y q + pb_w q) ∧
  Z.max (pb_z p) (pb_z q) < Z.min (pb_z p + pb_h p) (pb_z q + pb_h q).

(** On some axis the far face of one box lies in the plane of the near face
    of the other. *)
Definition touching (p q : PlacedBox) : Prop :=
  pb_x p + pb_l p = pb_x q ∨ pb_x q + pb_l q = pb_x p ∨
  pb_y p + pb_w p = pb_y q ∨ pb_y q + pb_w q = pb_y p ∨
  pb_z p + pb_h p = pb_z q ∨ pb_z q + pb_h q = pb_z p.

Definition pairwise_disjoint (placed : list PlacedBox) : Prop :=
  ∀ i j p q, i ≠ j → placed !! i = Some p → placed !! j = Some q →
             ¬ share_volume p q.

(** The origin of [p] is not negative and its far corner is within the
    dimensions of [c]. *)
Definition inside (c : Container) (p : PlacedBox) : Prop :=
  (0 ≤ pb_x p ∧ 0 ≤ pb_y p ∧ 0 ≤ pb_z p) ∧
  (pb_x p + pb_l p ≤ con_l c ∧ pb_y p + pb_w p ≤ con_w c ∧
   pb_z p + pb_h p ≤ con_h c).

(** The dimensions of [p] are those of its box, in some order. *)
Definition oriented (p : PlacedBox) : Prop :=
  (pb_l p, pb_w p, pb_h p) ∈ permutations3 (box_dims (pb_box p)).

(** ** Container generation *)

(** [v] is a term of the progression [min_dim, min_dim + increment, ...]
    that does not pass [max_dim]. *)
Definition in_progression (min_dim max_dim increment v : Z) : Prop :=
  ∃ i, 0 ≤ i ∧ v = min_dim + i * increment ∧ v ≤ max_dim.

(** The dimensions of [c] are in ascending order, each is a term of the
    progression, and their sum is within [total_sum]. *)
Definition admissible (total_sum max_dim min_dim increment : Z)
    (c : Container) : Prop :=
  (con_l c ≤ con_w c ∧ con_w c ≤ con_h c) ∧
  in_progression min_dim max_dim increment (con_l c) ∧
  in_progression min_dim max_dim increment (con_w c) ∧
  in_progression min_dim max_dim increment (con_h c) ∧
  con_l c + con_w c + con_h c ≤ total_sum.

(** ** Weight limit and first fit *)

(** The total weight [n] exceeds the limit [f]. *)
Definition exceeds (n : Z) (f : pyfloat) : Prop :=
  match f with
  | FNaN => False
  | FPosInf => False
  | FNegInf => True
  | FFinite q => (q < inject_Z n)%Q
  end.

(** What the specification says of one subset, to compare the loops with. *)

(** The containers that pass the volume filter, in the order of the list. *)
Definition surviving (bs : list Box) (containers : list Container)
    : list Container :=
  filter (λ c, total_volume bs ≤ con_volume c) containers.

Section SearchSpec.
Context `{SetOrder}.

(** First fit: the first surviving container for which the placement
    engine yields a placement, with that placement. *)
Definition first_fit (bs : list Box) (containers : list Container)
    : option (Container * list PlacedBox) :=
  head (omap (λ c, pair c <$> check_fit bs c) (surviving bs containers)).

(** The containers of [cs] up to and including the first one for which
    the engine yields a placement (all of them when there is none). *)
Fixpoint upto_first_fit (bs : list Box) (cs : list Container)
    : list Container :=
  match cs with
  | [] => []
  | c :: cs' =>
      c :: match check_fit bs c with
           | Some _ => []
           | None => upto_first_fit bs cs'
           end
  end.

(** The outcome for a subset: nothing when it is too heavy, else its
    first fit. *)
Definition outcome (max_weight : pyfloat) (containers : list Container)
    (bs : list Box) : option (Container * list PlacedBox) :=
  if int_gt_float (total_weight bs) max_weight then None
  else first_fit bs containers.

(** The containers the engine is run on for a subset. *)
Definition attempts (max_weight : pyfloat) (containers : list Container)
    (bs : list Box) : list (list Box * Container) :=
  if int_gt_float (total_weight bs) max_weight then []
  else pair bs <$> upto_first_fit bs (surviving bs containers).
End SearchSpec.

(** The subsets in the order of the two outer loops: sizes [2] to
    [len(input_boxes)], and [itertools.combinations] for each size. *)
Definition subsets (input_boxes : list Box) : list (list Box) :=
  flat_map (combinations input_boxes) (seq 2 (length input_boxes + 1 - 2)).

(** The calls of [check_fit] recorded in a history, in order. *)
Definition calls (h : list event) : list (list Box * Container) :=
  omap (λ e, match e with
             | CheckFit bs c => Some (bs, c)
             | Log _ => None
             end) h.

(** The container and the placement list of each fit found. *)
Definition fits (st : state) : list (Container * list PlacedBox) :=
  (λ f, (fit_container f, fit_boxes f)) <$> successful_fits st.

(** ** Further vocabulary *)

(** The three dimensions of [p] are positive. *)
Definition positive_dims (p : PlacedBox) : Prop :=
  0 < pb_l p ∧ 0 < pb_w p ∧ 0 < pb_h p.

(** The origin of a placed box. *)
Definition origin (p : PlacedBox) : triple := (pb_x p, pb_y p, pb_z p).

(** [p] starts at one of the three far corners of [q]. *)
Definition flush_against (q p : PlacedBox) : Prop :=
  origin p = (pb_x q + pb_l q, pb_y q, pb_z q) ∨
  origin p = (pb_x q, pb_y q + pb_w q, pb_z q) ∨
  origin p = (pb_x q, pb_y q, pb_z q + pb_h q).

(** Some rotation of [b] is within the three dimensions of [c]. *)
Definition fits_rotated (c : Container) (b : Box) : Prop :=
  ∃ l w h, (l, w, h) ∈ permutations3 (box_dims b) ∧
           l ≤ con_l c ∧ w ≤ con_w c ∧ h ≤ con_h c.

(** [a] does not come after [b] in the order of Python tuples. *)
Definition tuple_le (a b : triple) : Prop := tuple_lt b a = false.

(** The volume of [a] is at least the volume of [b]. *)
Definition volume_ge (a b : Box) : Prop := (box_volume b ≤ box_volume a)%N.

(** The name given to the [n]-th fit, for the subset [bs] in container [c]:
    [f"Fit #{n}: ({box_names}) in {c.l}x{c.w}x{c.h}"]. *)
Definition fit_label (n : nat) (bs : list Box) (c : Container) : string :=
  "Fit #" +:+ pretty n +:+ ": (" +:+ join ", " (box_name <$> bs) +:+ ") in "
  +:+ pretty (con_l c) +:+ "x" +:+ pretty (con_w c) +:+ "x"
  +:+ pretty (con_h c).

(** The fits are numbered as they are found. *)
Definition numbered `{SetOrder} (st : state) : Prop :=
  found_solutions st = length (successful_fits st) ∧
  ∀ i f, successful_fits st !! i = Some f →
         ∃ bs, fit_name f = fit_label (S i) bs (fit_container f) ∧
               check_fit bs (fit_container f) = Some (fit_boxes f).

(** * Concrete inputs *)

Definition boxA := box_of_match "A" 100 100 100 1 "#FF7F50".
Definition boxB := box_of_match "B" 200 200 200 1 "#FFD700".
Definition boxC := box_of_match "C" 50 400 50 3 "#ADFF2F".

Definition cont300 := container_of_dims (300, 300, 300).
Definition placedB := mkPlacedBox boxB 0 0 0 200 200 200.
Definition placedA := mkPlacedBox boxA 0 0 200 100 100 100.
Definition placedBA := [placedB; placedA].
Definition fitAB :=
  {| fit_name := "Fit #1: (A, B) in 300x300x300";
     fit_container := cont300; fit_boxes := placedBA |}.

(** * Properties *)

(** ** Facts about the built-ins *)

Lemma first_some_Some {A B} (f : A → option B) (l : list A) (r : B) :
  first_some f l = Some r → ∃ x, x ∈ l ∧ f x = Some r.
Proof.
  induction l as [|x l IH]; simpl; [discriminate|].
  destruct (f x) as [r'|] eqn:Hfx.
  - intros [= ->]. exists x. split; [left | done].
  - intros Hl. destruct (IH Hl) as (y & Hy & Hfy).
    exists y. split; [by right | done].
Qed.

Lemma py_insert_perm {A} (lt : A → A → bool) (x : A) (l : list A) :
  py_insert lt x l ≡ₚ x :: l.
Proof.
  induction l as [|y l IH]; simpl; [done|].
  destruct (lt y x); [|done].
  rewrite IH. apply perm_swap.
Qed.

Lemma py_sorted_perm {A} (lt : A → A → bool) (l : list A) :
  py_sorted lt l ≡ₚ l.
Proof.
  induction l as [|x l IH]; simpl; [done|].
  by rewrite py_insert_perm, IH.
Qed.

Section PackingFacts.
Context `{SetOrder}.

Lemma elem_of_set_iter (s : gset triple) (t : triple) :
  t ∈ set_iter s ↔ t ∈ s.
Proof. by rewrite set_iter_perm, elem_of_elements. Qed.

Lemma NoDup_set_iter (s : gset triple) : NoDup (set_iter s).
Proof. rewrite set_iter_perm. apply NoDup_elements. Qed.

Lemma elem_of_rotations (b : Box) (r : triple) :
  r ∈ set_iter (rotations b) ↔ r ∈ permutations3 (box_dims b).
Proof. unfold rotations. by rewrite elem_of_set_iter, elem_of_list_to_set. Qed.

Lemma elem_of_unique_anchors (placed : list PlacedBox) (a : triple) :
  a ∈ unique_anchors placed ↔ a ∈ anchor_points placed.
Proof.
  unfold unique_anchors.
  by rewrite py_sorted_perm, elem_of_set_iter, elem_of_list_to_set.
Qed.

(** A successful call on a non-empty list placed its first box at an
    anchor, in one of its rotations, inside the bounds and clear of the
    boxes already placed, and then succeeded on the rest. *)
Lemma pack_step (b : Box) (rest : list Box) (c : Container)
    (placed res : list PlacedBox) :
  pack_recursive_helper (b :: rest) c placed = Some res →
  ∃ ax ay az l w h,
    (ax, ay, az) ∈ anchor_points placed ∧
    (l, w, h) ∈ permutations3 (box_dims b) ∧
    (ax + l ≤ con_l c ∧ ay + w ≤ con_w c ∧ az + h ≤ con_h c) ∧
    check_overlap placed ax ay az l w h = false ∧
    pack_recursive_helper rest c
      (placed ++ [mkPlacedBox b ax ay az l w h]) = Some res.
Proof.
  simpl. intros Hres.
  apply first_some_Some in Hres as ([[ax ay] az] & Ha & Hres).
  apply first_some_Some in Hres as ([[l w] h] & Hr & Hres).
  apply elem_of_unique_anchors in Ha. apply elem_of_rotations in Hr.
  unfold try_place in Hres.
  destruct ((ax + l >? con_l c) || (ay + w >? con_w c) || (az + h >? con_h c))
    eqn:Hb; [discriminate|].
  destruct (check_overlap placed ax ay az l w h) eqn:Ho; [discriminate|].
  exists ax, ay, az, l, w, h. repeat split; try done; lia.
Qed.

(** Induction principle for properties of the placement list that every
    placement step preserves. *)
Lemma pack_invariant (P : list PlacedBox → Prop) (c : Container) :
  (∀ placed b ax ay az l w h,
      P placed →
      (ax, ay, az) ∈ anchor_points placed →
      (l, w, h) ∈ permutations3 (box_dims b) →
      ax + l ≤ con_l c ∧ ay + w ≤ con_w c ∧ az + h ≤ con_h c →
      check_overlap placed ax ay az l w h = false →
      P (placed ++ [mkPlacedBox b ax ay az l w h])) →
  ∀ boxes placed res,
    P placed → pack_recursive_helper boxes c placed = Some res → P res.
Proof.
  intros Hstep boxes. induction boxes as [|b rest IH]; intros placed res HP.
  - simpl. by intros [= <-].
  - intros Hres.
    apply pack_step in Hres as (ax & ay & az & l & w & h & Ha & Hr & Hb & Ho & Hres).
    eapply IH; [|exact Hres]. by apply Hstep.
Qed.

Lemma check_fit_Some (bs : list Box) (c : Container) (res : list PlacedBox) :
  check_fit bs c = Some res →
  quick_check (sort_by_volume bs) c = true ∧
  pack_recursive_helper (sort_by_volume bs) c [] = Some res.
Proof.
  unfold check_fit.
  destruct (quick_check (sort_by_volume bs) c); [done | discriminate].
Qed.
End PackingFacts.

(** ** No overlap (C1) *)

(** One axis: intervals [a1, a2] and [b1, b2] that the test of
    [check_overlap] separates have no common segment. *)
Lemma axis_separated (a1 a2 b1 b2 : Z) :
  (a2 <=? b1) || (a1 >=? b2) = true →
  ¬ Z.max a1 b1 < Z.min a2 b2 ∧ ¬ Z.max b1 a1 < Z.min b2 a2.
Proof. lia. Qed.

Lemma overlaps_false_disjoint (p q : PlacedBox) :
  overlaps p (pb_x q) (pb_y q) (pb_z q) (pb_l q) (pb_w q) (pb_h q) = false →
  ¬ share_volume p q ∧ ¬ share_volume q p.
Proof.
  unfold overlaps, share_volume.
  rewrite negb_false_iff.
  intros [[Hx%axis_separated|Hy%axis_separated]%orb_true_iff
         |Hz%axis_separated]%orb_true_iff; tauto.
Qed.

Lemma check_overlap_false (placed : list PlacedBox) (x y z l w h : Z) :
  check_overlap placed x y z l w h = false ↔
  Forall (λ p, overlaps p x y z l w h = false) placed.
Proof.
  induction placed as [|p placed IH]; simpl.
  - split; [constructor | done].
  - rewrite Forall_cons. destruct (overlaps p x y z l w h); [|tauto].
    split; [discriminate | by intros [? _]].
Qed.

Lemma pairwise_disjoint_snoc (placed : list PlacedBox) (n : PlacedBox) :
  pairwise_disjoint placed →
  check_overlap placed (pb_x n) (pb_y n) (pb_z n) (pb_l n) (pb_w n) (pb_h n)
    = false →
  pairwise_disjoint (placed ++ [n]).
Proof.
  intros Hpd Ho%check_overlap_false i j p q Hij Hi Hj.
  rewrite Forall_forall in Ho.
  apply lookup_snoc_Some in Hi as [[_ Hi]|[-> <-]];
    apply lookup_snoc_Some in Hj as [[_ Hj]|[-> <-]].
  - by eapply Hpd.
  - eapply (overlaps_false_disjoint p n), Ho, list_elem_of_lookup_2, Hi.
  - eapply (overlaps_false_disjoint q n), Ho, list_elem_of_lookup_2, Hj.
  - done.
Qed.

(** C1: in a placement list returned by [check_fit], two boxes at distinct
    positions of the list never share a positive volume; and a box that
    touches a placed box along a face is not reported by [check_overlap]. *)
Theorem check_fit_no_overlap `{SetOrder} :
  (∀ (bs : list Box) (c : Container) (placed : list PlacedBox),
     check_fit bs c = Some placed →
     ∀ i j p q, i ≠ j → placed !! i = Some p → placed !! j = Some q →
                ¬ share_volume p q) ∧
  (∀ p q : PlacedBox,
     touching p q →
     check_overlap [q] (pb_x p) (pb_y p) (pb_z p) (pb_l p) (pb_w p) (pb_h p)
       = false).
Proof.
  split.
  - intros bs c placed [_ Hpack]%check_fit_Some.
    change (pairwise_disjoint placed).
    apply (pack_invariant pairwise_disjoint c) with (3 := Hpack).
    + intros pls b ax ay az l w h Hpd _ _ _ Ho.
      by apply pairwise_disjoint_snoc.
    + intros i j p q _ Hi. by rewrite lookup_nil in Hi.
  - intros p q Ht. unfold touching in Ht. simpl. unfold overlaps.
    destruct (negb _) eqn:Hn; [lia | done].
Qed.

(** ** Containment (C2) *)

Lemma permutations3_nonneg (b : Box) (l w h : Z) :
  (l, w, h) ∈ permutations3 (box_dims b) → 0 ≤ l ∧ 0 ≤ w ∧ 0 ≤ h.
Proof.
  unfold permutations3, box_dims. rewrite !elem_of_cons, elem_of_nil.
  intros Hr. repeat destruct Hr as [Hr|Hr]; try done; injection Hr as -> -> ->; lia.
Qed.

Lemma anchor_points_nonneg (placed : list PlacedBox) (ax ay az : Z) :
  Forall (λ p, (0 ≤ pb_x p ∧ 0 ≤ pb_y p ∧ 0 ≤ pb_z p) ∧
               (0 ≤ pb_l p ∧ 0 ≤ pb_w p ∧ 0 ≤ pb_h p)) placed →
  (ax, ay, az) ∈ anchor_points placed → 0 ≤ ax ∧ 0 ≤ ay ∧ 0 ≤ az.
Proof.
  intros Hall. unfold anchor_points. rewrite elem_of_cons.
  intros [[= -> -> ->]|Ha]; [lia|].
  apply list_elem_of_In, in_flat_map in Ha as (p & Hp%list_elem_of_In & Ha).
  rewrite Forall_forall in Hall. specialize (Hall p Hp).
  apply list_elem_of_In in Ha. rewrite !elem_of_cons, elem_of_nil in Ha.
  repeat destruct Ha as [Ha|Ha]; try done; injection Ha as -> -> ->; lia.
Qed.

(** C2: every box of a placement list returned by [check_fit] has its
    origin at non-negative coordinates and its far corner within the
    container, with the dimensions of one of its orientations. *)
Theorem check_fit_inside_container `{SetOrder} (bs : list Box) (c : Container)
    (placed : list PlacedBox) :
  check_fit bs c = Some placed →
  ∀ p, p ∈ placed →
    (0 ≤ pb_x p ∧ 0 ≤ pb_y p ∧ 0 ≤ pb_z p) ∧
    (pb_x p + pb_l p ≤ con_l c ∧ pb_y p + pb_w p ≤ con_w c ∧
     pb_z p + pb_h p ≤ con_h c) ∧
    (pb_l p, pb_w p, pb_h p) ∈ permutations3 (box_dims (pb_box p)).
Proof.
  intros [_ Hpack]%check_fit_Some.
  cut (Forall (λ p, inside c p ∧ oriented p) placed).
  { rewrite Forall_forall. intros Hall p Hp.
    destruct (Hall p Hp) as [[Ho Hf] Hr]. done. }
  apply (pack_invariant (Forall (λ p, inside c p ∧ oriented p)) c)
    with (3 := Hpack); [|constructor].
  intros pls b ax ay az l w h Hall Ha Hr Hb _.
  apply Forall_app. split; [done|]. apply Forall_singleton.
  split; [|exact Hr]. split; [|exact Hb]. simpl.
  apply (anchor_points_nonneg pls); [|done].
  eapply Forall_impl; [exact Hall|].
  intros p [[Ho _] Hp]. split; [done|].
  by apply (permutations3_nonneg (pb_box p)).
Qed.

(** ** Every box is placed once (C10) *)

Lemma pack_places_boxes `{SetOrder} (boxes : list Box) (c : Container)
    (placed res : list PlacedBox) :
  pack_recursive_helper boxes c placed = Some res →
  pb_box <$> res = (pb_box <$> placed) ++ boxes.
Proof.
  revert placed. induction boxes as [|b rest IH]; intros placed.
  - simpl. intros [= <-]. by rewrite app_nil_r.
  - intros (ax & ay & az & l & w & h & _ & _ & _ & _ & Hres)%pack_step.
    rewrite (IH _ Hres), fmap_app. simpl. by rewrite <- app_assoc.
Qed.

Lemma check_fit_boxes `{SetOrder} (bs : list Box) (c : Container)
    (placed : list PlacedBox) :
  check_fit bs c = Some placed →
  length placed = length bs ∧ pb_box <$> placed ≡ₚ bs.
Proof.
  intros [_ Hpack%pack_places_boxes]%check_fit_Some.
  simpl in Hpack.
  assert (pb_box <$> placed ≡ₚ bs) as Hperm.
  { rewrite Hpack. apply py_sorted_perm. }
  split; [|done].
  by rewrite <- (length_fmap pb_box), Hperm.
Qed.

(** C10: a placement list returned by [check_fit] has one entry for each box
    of the input, and the boxes its entries refer to are the boxes of the
    input, each as often as it occurs there; on the empty input the result
    is the empty placement list, not the no-fit result. *)
Theorem check_fit_places_every_box `{SetOrder} (c : Container) :
  (∀ (bs : list Box) (placed : list PlacedBox),
     check_fit bs c = Some placed →
     length placed = length bs ∧ pb_box <$> placed ≡ₚ bs) ∧
  check_fit [] c = Some [].
Proof.
  split; [|done].
  intros bs placed Hfit. by apply (check_fit_boxes bs c).
Qed.

(** ** The quick check (C7) *)

Section QuickCheck.
Context `{SetOrder}.

Lemma can_fit_at_all_true (c : Container) (b : Box) :
  can_fit_at_all c b = true ↔
  ∃ l w h, (l, w, h) ∈ permutations3 (box_dims b) ∧
           l ≤ con_l c ∧ w ≤ con_w c ∧ h ≤ con_h c.
Proof.
  unfold can_fit_at_all. rewrite existsb_exists. split.
  - intros ([[l w] h] & Hr%list_elem_of_In%elem_of_rotations & Hb).
    exists l, w, h. split; [done | lia].
  - intros (l & w & h & Hr & Hb). exists (l, w, h).
    split; [by apply list_elem_of_In, elem_of_rotations | lia].
Qed.

Lemma quick_check_true (l : list Box) (c : Container) :
  quick_check l c = true ↔ Forall (λ b, can_fit_at_all c b = true) l.
Proof.
  induction l as [|b l IH]; simpl.
  - split; [constructor | done].
  - rewrite Forall_cons. destruct (can_fit_at_all c b); [tauto|].
    split; [discriminate | by intros [? _]].
Qed.
End QuickCheck.

(** C7: when no rotation of some box of the list is within the container's
    three dimensions, the quick check fails and [check_fit] returns the
    no-fit result without a call of [pack_recursive_helper]: the traced run
    of [check_fit] ends with [None] and an empty list of calls.  The traced
    run has the result of [check_fit] on every input, and it records the
    call of line 106 whenever the quick check passes. *)
Theorem check_fit_rejects_unfit_box `{SetOrder} (bs : list Box) (c : Container)
    (b : Box) :
  b ∈ bs →
  (∀ l w h, (l, w, h) ∈ permutations3 (box_dims b) →
            ¬ (l ≤ con_l c ∧ w ≤ con_w c ∧ h ≤ con_h c)) →
  (quick_check (sort_by_volume bs) c = false ∧ check_fit bs c = None) ∧
  check_fit_traced bs c = (None, []) ∧
  (∀ bs' c', fst (check_fit_traced bs' c') = check_fit bs' c') ∧
  (∀ bs' c', quick_check (sort_by_volume bs') c' = true →
             snd (check_fit_traced bs' c')
             = [PackCall (sort_by_volume bs') c' []]).
Proof.
  intros Hb Hno.
  assert (quick_check (sort_by_volume bs) c = false) as Hq.
  { apply not_true_is_false. rewrite quick_check_true, Forall_forall.
    intros Hall. specialize (Hall b).
    rewrite can_fit_at_all_true in Hall.
    destruct Hall as (l & w & h & Hr & Hfit).
    - unfold sort_by_volume. by rewrite py_sorted_perm.
    - by apply (Hno l w h). }
  split; [|split; [|split]].
  - split; [done|]. unfold check_fit. by rewrite Hq.
  - unfold check_fit_traced. by rewrite Hq.
  - intros bs' c'. unfold check_fit_traced, check_fit.
    by destruct (quick_check (sort_by_volume bs') c').
  - intros bs' c' Hq'. unfold check_fit_traced. by rewrite Hq'.
Qed.

(** ** Container generation (C4, C5, C6) *)

Lemma elem_of_py_range (start stop step v : Z) :
  0 < step →
  v ∈ py_range start stop step ↔
  ∃ i, 0 ≤ i ∧ v = start + i * step ∧ v < stop.
Proof.
  intros Hstep. unfold py_range.
  destruct (Z.ltb_spec start stop) as [Hlt|Hge].
  - rewrite list_elem_of_fmap. split.
    + intros (i & -> & [Hi Hn]%elem_of_seqZ). exists i.
      split; [done|]. split; [done|].
      pose proof (Z.mul_div_le (stop - 1 - start) step Hstep). nia.
    + intros (i & Hi & -> & Hv). exists i. split; [done|].
      apply elem_of_seqZ. split; [done|].
      assert (i ≤ (stop - 1 - start) `div` step); [|lia].
      apply Z.div_le_lower_bound; lia.
  - rewrite elem_of_nil. split; [done|]. intros (i & Hi & -> & Hv). nia.
Qed.

Lemma py_range_sorted (start stop step : Z) :
  0 < step → StronglySorted Z.le (py_range start stop step).
Proof.
  intros Hstep. unfold py_range.
  destruct (start <? stop); [|constructor].
  unfold seqZ. rewrite <- !list_fmap_compose.
  generalize (Z.to_nat (1 + (stop - 1 - start) `div` step)). intros n.
  generalize 0%nat. induction n as [|n IH]; intros a; simpl; constructor.
  - apply IH.
  - rewrite Forall_fmap, Forall_forall. intros k Hk%elem_of_seq. simpl. nia.
Qed.

(** [sorted_dims] puts the three numbers in ascending order. *)
Lemma sorted_dims_spec (l w h : Z) :
  ∃ a b c, sorted_dims l w h = (a, b, c) ∧
           py_sorted Z.ltb [l; w; h] = [a; b; c] ∧ a ≤ b ∧ b ≤ c.
Proof.
  unfold sorted_dims. simpl.
  destruct (Z.ltb_spec h w); simpl;
    repeat (match goal with |- context [Z.ltb ?x ?y] =>
              destruct (Z.ltb_spec x y); simpl end);
    eexists _, _, _; repeat split; lia.
Qed.

Lemma sorted_dims_perm (l w h a b c : Z) :
  sorted_dims l w h = (a, b, c) → [a; b; c] ≡ₚ [l; w; h].
Proof.
  destruct (sorted_dims_spec l w h) as (a' & b' & c' & -> & Hs & _).
  intros [= <- <- <-]. rewrite <- Hs. apply py_sorted_perm.
Qed.

Lemma sorted_dims_ascending (l w h : Z) :
  l ≤ w → w ≤ h → sorted_dims l w h = (l, w, h).
Proof.
  intros Hlw Hwh. unfold sorted_dims. simpl.
  destruct (Z.ltb_spec h w); simpl;
    repeat (match goal with |- context [Z.ltb ?x ?y] =>
              destruct (Z.ltb_spec x y); simpl end);
    f_equal; try f_equal; lia.
Qed.

(** Ascending triples with the same numbers are the same triple. *)
Lemma ascending_perm_eq (a b c a' b' c' : Z) :
  a ≤ b → b ≤ c → a' ≤ b' → b' ≤ c' →
  [a; b; c] ≡ₚ [a'; b'; c'] → (a, b, c) = (a', b', c').
Proof.
  intros Hab Hbc Hab' Hbc' Hperm.
  assert ([a; b; c] = [a'; b'; c']) as [= -> -> ->]; [|done].
  apply (StronglySorted_unique Z.le); [| |done];
    repeat (constructor; [|repeat constructor; lia]); constructor.
Qed.

Lemma fold_left_ext {A B} (f g : A → B → A) (l : list B) (a : A) :
  (∀ a b, f a b = g a b) → fold_left f l a = fold_left g l a.
Proof.
  intros Hfg. revert a. induction l as [|b l IH]; intros a; simpl; [done|].
  by rewrite Hfg, IH.
Qed.

(** Membership in a set built by a loop that only adds elements. *)
Lemma elem_of_fold_left_add {A} (f : gset triple → A → gset triple)
    (Q : A → triple → Prop) :
  (∀ acc a x, x ∈ f acc a ↔ x ∈ acc ∨ Q a x) →
  ∀ (l : list A) acc x,
    x ∈ fold_left f l acc ↔ x ∈ acc ∨ ∃ a, a ∈ l ∧ Q a x.
Proof.
  intros Hf l. induction l as [|a l IH]; intros acc x; simpl.
  - split; [by left|]. intros [?|(a & Ha & _)]; [done|]. by apply elem_of_nil in Ha.
  - rewrite IH, Hf. split.
    + intros [[?|?]|(a' & Ha' & ?)]; [by left|right..].
      * exists a. split; [left|done].
      * exists a'. split; [by right|done].
    + intros [?|(a' & Ha' & HQ)]; [by left; left|].
      apply elem_of_cons in Ha' as [->|Ha'].
      * left. by right.
      * right. by exists a'.
Qed.

Lemma elem_of_h_loop_naive (total_sum l w : Z) (hs : list Z)
    (acc : gset triple) (x : triple) :
  x ∈ h_loop_naive total_sum l w hs acc ↔
  x ∈ acc ∨ ∃ h, h ∈ hs ∧ l + w + h ≤ total_sum ∧ x = sorted_dims l w h.
Proof.
  revert acc. induction hs as [|h hs IH]; intros acc; simpl.
  - split; [by left|]. intros [?|(h & Hh & _)]; [done|]. by apply elem_of_nil in Hh.
  - destruct (Z.leb_spec (l + w + h) total_sum) as [Hle|Hgt]; rewrite IH.
    + rewrite elem_of_union, elem_of_singleton. split.
      * intros [[?| ->]|(h' & Hh' & ?)]; [by left|right..].
        -- exists h. split; [left|done].
        -- exists h'. split; [by right|done].
      * intros [?|(h' & Hh' & Hs & ->)]; [by left; left|].
        apply elem_of_cons in Hh' as [->|Hh'].
        -- left. by right.
        -- right. by exists h'.
    + split.
      * intros [?|(h' & Hh' & ?)]; [by left|right].
        exists h'. split; [by right|done].
      * intros [?|(h' & Hh' & Hs & ->)]; [by left|].
        apply elem_of_cons in Hh' as [->|Hh']; [lia|].
        right. by exists h'.
Qed.

(** On an ascending list the [break] skips only heights that fail the test. *)
Lemma h_loop_break (total_sum l w : Z) (hs : list Z) (acc : gset triple) :
  StronglySorted Z.le hs →
  h_loop total_sum l w hs acc = h_loop_naive total_sum l w hs acc.
Proof.
  intros Hs. revert acc. induction Hs as [|h hs Hs IH Hall]; intros acc; simpl.
  - done.
  - destruct (Z.leb_spec (l + w + h) total_sum) as [Hle|Hgt]; [apply IH|].
    clear IH Hs. induction Hall as [|h' hs Hh' Hall IH]; simpl; [done|].
    destruct (Z.leb_spec (l + w + h') total_sum); [lia | apply IH].
Qed.

Lemma container_dims_break (total_sum : Z) (steps : list Z) :
  StronglySorted Z.le steps →
  container_dims total_sum steps = container_dims_naive total_sum steps.
Proof.
  intros Hs. unfold container_dims, container_dims_naive.
  apply fold_left_ext. intros acc l.
  apply fold_left_ext. intros acc' w. by apply h_loop_break.
Qed.

Lemma elem_of_container_dims_naive (total_sum : Z) (steps : list Z) (x : triple) :
  x ∈ container_dims_naive total_sum steps ↔
  ∃ l w h, l ∈ steps ∧ w ∈ steps ∧ h ∈ steps ∧
           l + w + h ≤ total_sum ∧ x = sorted_dims l w h.
Proof.
  unfold container_dims_naive.
  rewrite (elem_of_fold_left_add _
    (λ l x, ∃ w h, w ∈ steps ∧ h ∈ steps ∧
                   l + w + h ≤ total_sum ∧ x = sorted_dims l w h)).
  - rewrite elem_of_empty. split.
    + intros [Hf|(l & Hl & w & h & ?)]; [done|]. exists l, w, h. tauto.
    + intros (l & w & h & Hl & ?). right. exists l. split; [done|].
      exists w, h. tauto.
  - intros acc l y.
    rewrite (elem_of_fold_left_add _
      (λ w x, ∃ h, h ∈ steps ∧ l + w + h ≤ total_sum ∧ x = sorted_dims l w h)).
    + split.
      * intros [?|(w & Hw & h & ?)]; [by left|right]. exists w, h. tauto.
      * intros [?|(w & h & Hw & ?)]; [by left|right]. exists w.
        split; [done|]. exists h. tauto.
    + intros acc' w z. apply elem_of_h_loop_naive.
Qed.

Lemma elem_of_valid_steps (min_dim max_dim increment v : Z) :
  0 < increment →
  v ∈ py_range min_dim (max_dim + 1) increment ↔
  in_progression min_dim max_dim increment v.
Proof.
  intros Hinc. rewrite elem_of_py_range by done. unfold in_progression.
  split; intros (i & ? & ? & ?); exists i; repeat split; (done || lia).
Qed.

Global Instance container_of_dims_inj : Inj (=) (=) container_of_dims.
Proof. intros [[a b] c] [[a' b'] c']. simpl. by intros [= -> -> ->]. Qed.

Section Generation.
Context `{SetOrder}.

Lemma elem_of_generate_containers (total_sum max_dim min_dim increment : Z)
    (c : Container) :
  0 < increment →
  c ∈ generate_containers total_sum max_dim min_dim increment ↔
  admissible total_sum max_dim min_dim increment c ∧
  con_volume c = con_l c * con_w c * con_h c.
Proof.
  intros Hinc. unfold generate_containers.
  destruct (Z.leb_spec increment 0) as [?|_]; [lia|].
  rewrite list_elem_of_fmap.
  setoid_rewrite elem_of_set_iter.
  rewrite container_dims_break by by apply py_range_sorted.
  setoid_rewrite elem_of_container_dims_naive.
  unfold admissible. setoid_rewrite <- elem_of_valid_steps; [|done..].
  split.
  - intros (d & -> & l & w & h & Hl & Hw & Hh & Hsum & ->).
    destruct (sorted_dims_spec l w h) as (a & b & c' & Hd & _ & Hab & Hbc).
    pose proof (sorted_dims_perm _ _ _ _ _ _ Hd) as Hperm.
    rewrite Hd. simpl.
    assert (∀ v, v ∈ [a; b; c'] →
                 v ∈ py_range min_dim (max_dim + 1) increment) as Hin.
    { intros v. rewrite Hperm, !elem_of_cons, elem_of_nil.
      intros [->|[->|[->|[]]]]; done. }
    assert (a + b + c' = l + w + h) as Hs.
    { assert (foldr Z.add 0 [a; b; c'] = foldr Z.add 0 [l; w; h]) as Hf.
      { apply (foldr_permutation (=) Z.add 0); [|done]. intros; lia. }
      simpl in Hf. lia. }
    repeat split; try done; try lia; apply Hin; set_solver.
  - destruct c as [a b c' v]. simpl.
    intros [((Hab & Hbc) & Ha & Hb & Hc & Hsum) ->].
    exists (a, b, c'). split; [done|].
    exists a, b, c'. by rewrite sorted_dims_ascending.
Qed.

Lemma NoDup_generate_containers (total_sum max_dim min_dim increment : Z) :
  NoDup (generate_containers total_sum max_dim min_dim increment).
Proof.
  unfold generate_containers.
  destruct (increment <=? 0); [constructor|].
  apply (NoDup_fmap_2 _), NoDup_set_iter.
Qed.
End Generation.

(** C4: for a positive increment, the containers returned by
    [generate_containers] are exactly those with ascending dimensions, each a
    term of the progression from [min_dim] capped at [max_dim], whose sum is
    within [total_sum], and with the product of the dimensions as volume; no
    container is returned twice, and two returned containers whose
    dimensions are the same numbers in some order are the same container. *)
Theorem generate_containers_exact `{SetOrder}
    (total_sum max_dim min_dim increment : Z) :
  0 < increment →
  let containers := generate_containers total_sum max_dim min_dim increment in
  (∀ c, c ∈ containers ↔
        admissible total_sum max_dim min_dim increment c ∧
        con_volume c = con_l c * con_w c * con_h c) ∧
  NoDup containers ∧
  (∀ c1 c2, c1 ∈ containers → c2 ∈ containers →
            [con_l c1; con_w c1; con_h c1] ≡ₚ [con_l c2; con_w c2; con_h c2] →
            c1 = c2).
Proof.
  intros Hinc containers. split; [|split].
  - intros c. by apply elem_of_generate_containers.
  - apply NoDup_generate_containers.
  - intros [a b c v] [a' b' c' v'].
    intros [((Hab & Hbc) & _) Hv]%elem_of_generate_containers;
      [|done].
    intros [((Hab' & Hbc') & _) Hv']%elem_of_generate_containers;
      [|done].
    simpl in *. intros Hperm.
    pose proof (ascending_perm_eq _ _ _ _ _ _ Hab Hbc Hab' Hbc' Hperm) as [= -> -> ->].
    by subst.
Qed.

(** C6: for a positive increment, leaving the loop over [h] at the first sum
    that exceeds [total_sum] changes nothing: the set of dimensions built
    is the one of the loops that test every [(l, w, h)], and so is the list
    of containers returned. *)
Theorem generate_containers_break_is_optimisation `{SetOrder}
    (total_sum max_dim min_dim increment : Z) :
  0 < increment →
  container_dims total_sum (py_range min_dim (max_dim + 1) increment)
  = container_dims_naive total_sum (py_range min_dim (max_dim + 1) increment) ∧
  generate_containers total_sum max_dim min_dim increment
  = generate_containers_naive total_sum max_dim min_dim increment.
Proof.
  intros Hinc.
  assert (container_dims total_sum (py_range min_dim (max_dim + 1) increment)
    = container_dims_naive total_sum (py_range min_dim (max_dim + 1) increment))
    as Heq by by apply container_dims_break, py_range_sorted.
  split; [done|].
  unfold generate_containers, generate_containers_naive. by rewrite Heq.
Qed.

(** ** The combination search (C3, C5, C8, C9) *)

Lemma calls_app (h1 h2 : list event) : calls (h1 ++ h2) = calls h1 ++ calls h2.
Proof. apply omap_app. Qed.

Section SearchFacts.
Context `{SetOrder}.

Lemma fits_emit (e : event) (st : state) : fits (emit e st) = fits st.
Proof. done. Qed.

Lemma fits_log (m : string) (st : state) : fits (log m st) = fits st.
Proof. done. Qed.

Lemma calls_log (m : string) (st : state) :
  calls (history (log m st)) = calls (history st).
Proof. unfold log, emit. simpl. by rewrite calls_app, app_nil_r. Qed.

Lemma container_loop_fits (bs : list Box) (cs : list Container) (st : state) :
  fits (container_loop bs (total_volume bs) cs st)
  = fits st ++ option_list (first_fit bs cs).
Proof.
  unfold first_fit, surviving. revert st.
  induction cs as [|c cs IH]; intros st; simpl.
  - by rewrite app_nil_r.
  - rewrite filter_cons. case_decide as Hvol.
    + destruct (Z.gtb_spec (total_volume bs) (con_volume c)); [lia|].
      simpl. destruct (check_fit bs c) as [placed|]; simpl.
      * unfold fits, fit_found. simpl. by rewrite fmap_app.
      * by rewrite IH.
    + destruct (Z.gtb_spec (total_volume bs) (con_volume c)); [|lia].
      apply IH.
Qed.

Lemma container_loop_calls (bs : list Box) (cs : list Container) (st : state) :
  calls (history (container_loop bs (total_volume bs) cs st))
  = calls (history st) ++ (pair bs <$> upto_first_fit bs (surviving bs cs)).
Proof.
  unfold surviving. revert st.
  induction cs as [|c cs IH]; intros st; simpl.
  - by rewrite app_nil_r.
  - rewrite filter_cons. case_decide as Hvol.
    + destruct (Z.gtb_spec (total_volume bs) (con_volume c)); [lia|].
      simpl. destruct (check_fit bs c) as [placed|]; simpl.
      * rewrite !calls_app. simpl. by rewrite !app_nil_r.
      * rewrite IH. simpl. rewrite calls_app. simpl.
        by rewrite <- app_assoc.
    + destruct (Z.gtb_spec (total_volume bs) (con_volume c)); [|lia].
      apply IH.
Qed.

Lemma combination_step_fits (mw : pyfloat) (cs : list Container)
    (st : state) (bs : list Box) :
  fits (combination_step mw cs st bs)
  = fits st ++ option_list (outcome mw cs bs).
Proof.
  unfold combination_step, outcome.
  destruct (int_gt_float (total_weight bs) mw).
  - by rewrite app_nil_r.
  - apply container_loop_fits.
Qed.

Lemma combination_step_calls (mw : pyfloat) (cs : list Container)
    (st : state) (bs : list Box) :
  calls (history (combination_step mw cs st bs))
  = calls (history st) ++ attempts mw cs bs.
Proof.
  unfold combination_step, attempts.
  destruct (int_gt_float (total_weight bs) mw).
  - by rewrite app_nil_r.
  - apply container_loop_calls.
Qed.

Lemma combinations_loop_fits (mw : pyfloat) (cs : list Container)
    (combos : list (list Box)) (st : state) :
  fits (fold_left (combination_step mw cs) combos st)
  = fits st ++ omap (outcome mw cs) combos.
Proof.
  revert st. induction combos as [|bs combos IH]; intros st; simpl.
  - by rewrite app_nil_r.
  - rewrite IH, combination_step_fits, <- app_assoc. f_equal.
    by destruct (outcome mw cs bs).
Qed.

Lemma combinations_loop_calls (mw : pyfloat) (cs : list Container)
    (combos : list (list Box)) (st : state) :
  calls (history (fold_left (combination_step mw cs) combos st))
  = calls (history st) ++ flat_map (attempts mw cs) combos.
Proof.
  revert st. induction combos as [|bs combos IH]; intros st; simpl.
  - by rewrite app_nil_r.
  - by rewrite IH, combination_step_calls, <- app_assoc.
Qed.

Lemma sizes_loop_fits (mw : pyfloat) (cs : list Container)
    (input : list Box) (ks : list nat) (st : state) :
  fits (fold_left (k_step mw cs input) ks st)
  = fits st ++ omap (outcome mw cs) (flat_map (combinations input) ks).
Proof.
  revert st. induction ks as [|k ks IH]; intros st; simpl.
  - by rewrite app_nil_r.
  - rewrite IH. unfold k_step.
    by rewrite combinations_loop_fits, omap_app, <- app_assoc.
Qed.

Lemma sizes_loop_calls (mw : pyfloat) (cs : list Container)
    (input : list Box) (ks : list nat) (st : state) :
  calls (history (fold_left (k_step mw cs input) ks st))
  = calls (history st)
    ++ flat_map (attempts mw cs) (flat_map (combinations input) ks).
Proof.
  revert st. induction ks as [|k ks IH]; intros st; simpl.
  - by rewrite app_nil_r.
  - rewrite IH. unfold k_step.
    by rewrite combinations_loop_calls, calls_log, flat_map_app, <- app_assoc.
Qed.

(** Without containers no subset has an outcome or an attempt. *)
Lemma omap_outcome_nil (mw : pyfloat) (l : list (list Box)) :
  omap (outcome mw []) l = [].
Proof.
  induction l as [|bs l IH]; [done|].
  change (omap (outcome mw []) (bs :: l))
    with (match outcome mw [] bs with
          | Some y => y :: omap (outcome mw []) l
          | None => omap (outcome mw []) l
          end).
  rewrite IH. unfold outcome, first_fit. simpl.
  by destruct (int_gt_float _ _).
Qed.

Lemma flat_map_attempts_nil (mw : pyfloat) (l : list (list Box)) :
  flat_map (attempts mw []) l = [].
Proof.
  induction l as [|bs l IH]; [done|].
  simpl. rewrite IH. unfold attempts. simpl.
  by destruct (int_gt_float _ _).
Qed.

(** The fits and the calls of a whole run. *)
Lemma run_packing_fits (total_sum max_dim min_dim increment : Z)
    (mw : pyfloat) (input : list Box) :
  let cs := generate_containers total_sum max_dim min_dim increment in
  fits (run_packing total_sum max_dim min_dim increment mw input)
  = omap (outcome mw cs) (subsets input).
Proof.
  intros cs. unfold run_packing. fold cs.
  destruct cs as [|c cs'] eqn:Hcs.
  - symmetry. apply omap_outcome_nil.
  - destruct (Nat.ltb_spec (length input) 2) as [Hlt|Hge].
    + unfold subsets.
      replace (length input + 1 - 2)%nat with 0%nat by lia. done.
    + unfold search. rewrite !fits_log, sizes_loop_fits. done.
Qed.

Lemma run_packing_calls (total_sum max_dim min_dim increment : Z)
    (mw : pyfloat) (input : list Box) :
  let cs := generate_containers total_sum max_dim min_dim increment in
  calls (history (run_packing total_sum max_dim min_dim increment mw input))
  = flat_map (attempts mw cs) (subsets input).
Proof.
  intros cs. unfold run_packing. fold cs.
  destruct cs as [|c cs'] eqn:Hcs.
  - symmetry. apply flat_map_attempts_nil.
  - destruct (Nat.ltb_spec (length input) 2) as [Hlt|Hge].
    + unfold subsets.
      replace (length input + 1 - 2)%nat with 0%nat by lia. done.
    + unfold search. rewrite !calls_log, sizes_loop_calls. done.
Qed.
End SearchFacts.

Lemma int_gt_float_true (n : Z) (f : pyfloat) :
  int_gt_float n f = true ↔ exceeds n f.
Proof.
  destruct f as [| | |q]; simpl; try done.
  rewrite negb_true_iff, <- not_true_iff_false, Qle_bool_iff. split.
  - apply Qnot_le_lt.
  - apply Qlt_not_le.
Qed.

Lemma int_gt_float_false (n : Z) (f : pyfloat) :
  int_gt_float n f = false ↔ ¬ exceeds n f.
Proof. by rewrite <- int_gt_float_true, not_true_iff_false. Qed.

Lemma total_weight_perm (bs bs' : list Box) :
  bs ≡ₚ bs' → total_weight bs = total_weight bs'.
Proof.
  intros Hperm. unfold total_weight.
  apply (foldr_permutation (=) _ 0); [|done]. intros; lia.
Qed.

Lemma length_combinations {A} (l : list A) (k : nat) (c : list A) :
  c ∈ combinations l k → length c = k.
Proof.
  revert k c. induction l as [|x l IH]; intros [|k] c; simpl.
  - by intros ->%list_elem_of_singleton.
  - by intros ?%elem_of_nil.
  - by intros ->%list_elem_of_singleton.
  - rewrite elem_of_app, list_elem_of_fmap.
    intros [(c' & -> & Hc')|Hc].
    + simpl. by rewrite (IH k c').
    + by apply IH.
Qed.

Lemma elem_of_subsets (input bs : list Box) :
  bs ∈ subsets input ↔
  ∃ k, (2 ≤ k ≤ length input)%nat ∧ bs ∈ combinations input k.
Proof.
  unfold subsets.
  rewrite list_elem_of_In, in_flat_map. split.
  - intros (k & Hk%list_elem_of_In%elem_of_seq & Hbs%list_elem_of_In).
    exists k. split; [lia | done].
  - intros (k & Hk & Hbs). exists k. split.
    + apply list_elem_of_In, elem_of_seq. lia.
    + by apply list_elem_of_In.
Qed.

Lemma length_subsets (input bs : list Box) :
  bs ∈ subsets input → (2 ≤ length bs)%nat.
Proof.
  intros (k & Hk & Hbs%length_combinations)%elem_of_subsets. lia.
Qed.

Lemma elem_of_calls (h : list event) (bs : list Box) (c : Container) :
  (bs, c) ∈ calls h ↔ CheckFit bs c ∈ h.
Proof.
  unfold calls. rewrite list_elem_of_omap. split.
  - intros ([m|bs' c'] & He & Heq); [done|]. by injection Heq as -> ->.
  - intros He. by exists (CheckFit bs c).
Qed.

Lemma elem_of_surviving (bs : list Box) (cs : list Container) (c : Container) :
  c ∈ surviving bs cs ↔ total_volume bs ≤ con_volume c ∧ c ∈ cs.
Proof. unfold surviving. by rewrite list_elem_of_filter. Qed.

Section OutcomeFacts.
Context `{SetOrder}.

(** The engine is run on the containers of [cs] in order until it yields a
    placement: on a first success after failures only, or on the whole
    list when it fails everywhere. *)
Lemma first_success (bs : list Box) (cs : list Container) :
  match head (omap (λ c, pair c <$> check_fit bs c) cs) with
  | Some (c, placed) =>
      ∃ pre post, cs = pre ++ c :: post ∧
                  Forall (λ c', check_fit bs c' = None) pre ∧
                  check_fit bs c = Some placed ∧
                  upto_first_fit bs cs = pre ++ [c]
  | None => Forall (λ c', check_fit bs c' = None) cs ∧
            upto_first_fit bs cs = cs
  end.
Proof.
  induction cs as [|c cs IH]; [by split|].
  change (omap (λ c, pair c <$> check_fit bs c) (c :: cs))
    with (match pair c <$> check_fit bs c with
          | Some y => y :: omap (λ c, pair c <$> check_fit bs c) cs
          | None => omap (λ c, pair c <$> check_fit bs c) cs
          end).
  simpl. destruct (check_fit bs c) as [placed|] eqn:Hfit; simpl.
  - by exists [], cs.
  - destruct (head _) as [[c' placed']|].
    + destruct IH as (pre & post & -> & Hpre & Hc' & Hup).
      exists (c :: pre), post. rewrite Hup.
      repeat split; try done. by constructor.
    + destruct IH as [Hall Hup]. rewrite Hup.
      split; [by constructor | done].
Qed.

Lemma outcome_Some (mw : pyfloat) (cs : list Container) (bs : list Box)
    (c : Container) (placed : list PlacedBox) :
  outcome mw cs bs = Some (c, placed) →
  ¬ exceeds (total_weight bs) mw ∧
  c ∈ surviving bs cs ∧ check_fit bs c = Some placed.
Proof.
  unfold outcome, first_fit.
  destruct (int_gt_float (total_weight bs) mw) eqn:Hw; [done|].
  apply int_gt_float_false in Hw.
  pose proof (first_success bs (surviving bs cs)) as Hfirst.
  intros Hhead. rewrite Hhead in Hfirst.
  destruct Hfirst as (pre & post & Hs & _ & Hfit & _).
  repeat split; try done. rewrite Hs, elem_of_app. right. left.
Qed.

Lemma elem_of_attempts (mw : pyfloat) (cs : list Container)
    (bs bs' : list Box) (c : Container) :
  (bs', c) ∈ attempts mw cs bs →
  bs' = bs ∧ ¬ exceeds (total_weight bs) mw ∧ c ∈ surviving bs cs.
Proof.
  unfold attempts.
  destruct (int_gt_float (total_weight bs) mw) eqn:Hw.
  { by intros ?%elem_of_nil. }
  apply int_gt_float_false in Hw.
  intros (c' & [= -> ->] & Hc)%list_elem_of_fmap.
  repeat split; try done.
  pose proof (first_success bs (surviving bs cs)) as Hfirst.
  destruct (head _) as [[c1 placed]|].
  - destruct Hfirst as (pre & post & Hs & _ & _ & Hup).
    rewrite Hup in Hc. rewrite Hs.
    apply elem_of_app in Hc as [Hc|Hc%list_elem_of_singleton].
    + apply elem_of_app. by left.
    + subst. apply elem_of_app. right. left.
  - destruct Hfirst as [_ Hup]. by rewrite Hup in Hc.
Qed.

(** What a run tried, and what it found, in terms of the subsets. *)
Lemma run_packing_call (total_sum max_dim min_dim increment : Z)
    (mw : pyfloat) (input bs : list Box) (c : Container) :
  CheckFit bs c
    ∈ history (run_packing total_sum max_dim min_dim increment mw input) →
  bs ∈ subsets input ∧ ¬ exceeds (total_weight bs) mw ∧
  c ∈ surviving bs
        (generate_containers total_sum max_dim min_dim increment).
Proof.
  rewrite <- elem_of_calls, run_packing_calls.
  intros (bs' & Hbs' & Hc%list_elem_of_In%elem_of_attempts)%list_elem_of_In%in_flat_map.
  destruct Hc as (-> & Hw & Hc). split; [by apply list_elem_of_In | done].
Qed.

Lemma run_packing_fit (total_sum max_dim min_dim increment : Z)
    (mw : pyfloat) (input : list Box) (f : fit) :
  f ∈ successful_fits
        (run_packing total_sum max_dim min_dim increment mw input) →
  ∃ bs, bs ∈ subsets input ∧ ¬ exceeds (total_weight bs) mw ∧
        fit_container f
          ∈ surviving bs
              (generate_containers total_sum max_dim min_dim increment) ∧
        check_fit bs (fit_container f) = Some (fit_boxes f).
Proof.
  intros Hf.
  assert ((fit_container f, fit_boxes f)
            ∈ fits (run_packing total_sum max_dim min_dim increment mw input))
    as Hin.
  { unfold fits. apply list_elem_of_fmap. by exists f. }
  rewrite run_packing_fits in Hin.
  apply list_elem_of_omap in Hin as (bs & Hbs & Hout%outcome_Some).
  exists bs. by split.
Qed.
End OutcomeFacts.

(** C3: no fit reported by the search is for a subset whose total weight
    exceeds [max_weight]; [check_fit] is never called for such a subset; and
    a subset whose total weight is exactly [max_weight] is not rejected: it
    goes on to the loop over the containers. *)
Theorem run_packing_weight_limit `{SetOrder}
    (total_sum max_dim min_dim increment : Z) (max_weight : pyfloat)
    (input_boxes : list Box) :
  let st := run_packing total_sum max_dim min_dim increment max_weight
              input_boxes in
  (∀ f, f ∈ successful_fits st →
        ∃ bs, bs ∈ subsets input_boxes ∧ pb_box <$> fit_boxes f ≡ₚ bs ∧
              ¬ exceeds (total_weight bs) max_weight ∧
              ¬ exceeds (total_weight (pb_box <$> fit_boxes f)) max_weight) ∧
  (∀ bs c, CheckFit bs c ∈ history st →
           ¬ exceeds (total_weight bs) max_weight) ∧
  (∀ bs containers st0,
     combination_step (FFinite (inject_Z (total_weight bs))) containers st0 bs
     = container_loop bs (total_volume bs) containers st0).
Proof.
  intros st. split; [|split].
  - intros f (bs & Hbs & Hw & _ & Hfit)%run_packing_fit.
    destruct (check_fit_boxes _ _ _ Hfit) as [_ Hperm].
    exists bs. repeat split; try done.
    by rewrite (total_weight_perm _ _ Hperm).
  - intros bs c (_ & Hw & _)%run_packing_call. done.
  - intros bs containers st0. unfold combination_step.
    assert (int_gt_float (total_weight bs)
              (FFinite (inject_Z (total_weight bs))) = false) as ->; [|done].
    apply int_gt_float_false. simpl. apply Qle_not_lt, Qle_refl.
Qed.

(** C5: for an increment that is not positive [generate_containers] returns
    the empty list, whatever the other three parameters; and when the list
    of containers is empty the run logs the no-containers error and stops:
    nothing else is logged, [check_fit] is not called and no fit is
    recorded. *)
Theorem no_containers_aborts `{SetOrder} :
  (∀ total_sum max_dim min_dim increment,
     increment ≤ 0 →
     generate_containers total_sum max_dim min_dim increment = []) ∧
  (∀ total_sum max_dim min_dim increment max_weight input_boxes,
     generate_containers total_sum max_dim min_dim increment = [] →
     run_packing total_sum max_dim min_dim increment max_weight input_boxes
     = {| found_solutions := 0;
          successful_fits := [];
          history :=
            [Log "Starting packing process...";
             Log "Error: No valid containers generated with these rules."] |}).
Proof.
  split.
  - intros total_sum max_dim min_dim increment Hinc.
    unfold generate_containers.
    destruct (Z.leb_spec increment 0); [done | lia].
  - intros total_sum max_dim min_dim increment max_weight input_boxes Hnil.
    unfold run_packing. by rewrite Hnil.
Qed.

(** C8: [check_fit] is only called on subsets of two boxes or more, so every
    fit recorded places two boxes or more; and with fewer than two boxes the
    run logs an error and stops, without a call of [check_fit] and without
    a fit. *)
Theorem run_packing_at_least_two `{SetOrder}
    (total_sum max_dim min_dim increment : Z) (max_weight : pyfloat)
    (input_boxes : list Box) :
  let st := run_packing total_sum max_dim min_dim increment max_weight
              input_boxes in
  (∀ bs c, CheckFit bs c ∈ history st → (2 ≤ length bs)%nat) ∧
  (∀ f, f ∈ successful_fits st → (2 ≤ length (fit_boxes f))%nat) ∧
  ((length input_boxes < 2)%nat →
   successful_fits st = [] ∧
   history st =
     [Log "Starting packing process...";
      Log (match generate_containers total_sum max_dim min_dim increment with
           | [] => "Error: No valid containers generated with these rules."
           | _ :: _ =>
               "Error: Need at least 2 valid boxes to run a combination check."
           end)]).
Proof.
  intros st. split; [|split].
  - intros bs c (Hbs%length_subsets & _)%run_packing_call. done.
  - intros f (bs & Hbs%length_subsets & _ & _ & Hfit)%run_packing_fit.
    destruct (check_fit_boxes _ _ _ Hfit) as [-> _]. done.
  - intros Hlen. subst st. unfold run_packing.
    destruct (generate_containers total_sum max_dim min_dim increment);
      [done|].
    destruct (Nat.ltb_spec (length input_boxes) 2); [done | lia].
Qed.

(** C9: [check_fit] is only called for containers whose volume is at least
    the total volume of the subset.  The fits recorded are, in the order of
    the subsets, the outcome of each subset that has one, and the calls of
    [check_fit] are, in that order, the attempts of each subset.  For a
    subset within the weight limit the outcome is the first container of the
    list, among those of sufficient volume, for which [check_fit] yields a
    placement, the attempts stop at that container, and when there is no
    such container all of them were tried and the subset has no outcome. *)
Theorem run_packing_first_fit `{SetOrder}
    (total_sum max_dim min_dim increment : Z) (max_weight : pyfloat)
    (input_boxes : list Box) :
  let containers := generate_containers total_sum max_dim min_dim increment in
  let st := run_packing total_sum max_dim min_dim increment max_weight
              input_boxes in
  (∀ bs c, CheckFit bs c ∈ history st → total_volume bs ≤ con_volume c) ∧
  fits st = omap (outcome max_weight containers) (subsets input_boxes) ∧
  calls (history st)
  = flat_map (attempts max_weight containers) (subsets input_boxes) ∧
  (∀ bs, ¬ exceeds (total_weight bs) max_weight →
     match outcome max_weight containers bs with
     | Some (c, placed) =>
         ∃ pre post,
           surviving bs containers = pre ++ c :: post ∧
           Forall (λ c', check_fit bs c' = None) pre ∧
           check_fit bs c = Some placed ∧
           attempts max_weight containers bs = pair bs <$> (pre ++ [c])
     | None =>
         Forall (λ c', check_fit bs c' = None) (surviving bs containers) ∧
         attempts max_weight containers bs
         = pair bs <$> surviving bs containers
     end).
Proof.
  intros containers st. split; [|split; [|split]].
  - intros bs c (_ & _ & Hc%elem_of_surviving)%run_packing_call. tauto.
  - apply run_packing_fits.
  - apply run_packing_calls.
  - intros bs Hw%int_gt_float_false. unfold outcome, attempts, first_fit.
    rewrite Hw.
    pose proof (first_success bs (surviving bs containers)) as Hfirst.
    destruct (head _) as [[c placed]|].
    + destruct Hfirst as (pre & post & Hs & Hpre & Hfit & Hup).
      exists pre, post. by rewrite Hup.
    + destruct Hfirst as [Hall Hup]. by rewrite Hup.
Qed.

(** ** The theorems at concrete inputs *)

Lemma check_fit_no_overlap_witness :
  @check_fit elements_order [boxA; boxB] cont300 = Some placedBA ∧
  (∀ i j p q, i ≠ j → placedBA !! i = Some p → placedBA !! j = Some q →
              ¬ share_volume p q) ∧
  touching placedA placedB ∧
  check_overlap [placedB] (pb_x placedA) (pb_y placedA) (pb_z placedA)
    (pb_l placedA) (pb_w placedA) (pb_h placedA) = false.
Proof.
  assert (@check_fit elements_order [boxA; boxB] cont300 = Some placedBA)
    as Hfit by (vm_compute; reflexivity).
  assert (touching placedA placedB) as Htouch
    by (unfold touching; simpl; lia).
  split; [exact Hfit|]. split; [|split; [exact Htouch|]].
  - exact (proj1 (@check_fit_no_overlap elements_order) _ _ _ Hfit).
  - exact (proj2 (@check_fit_no_overlap elements_order) _ _ Htouch).
Defined.

Lemma check_fit_inside_container_witness :
  @check_fit elements_order [boxA; boxB] cont300 = Some placedBA ∧
  ∀ p, p ∈ placedBA →
    (0 ≤ pb_x p ∧ 0 ≤ pb_y p ∧ 0 ≤ pb_z p) ∧
    (pb_x p + pb_l p ≤ con_l cont300 ∧ pb_y p + pb_w p ≤ con_w cont300 ∧
     pb_z p + pb_h p ≤ con_h cont300) ∧
    (pb_l p, pb_w p, pb_h p) ∈ permutations3 (box_dims (pb_box p)).
Proof.
  assert (@check_fit elements_order [boxA; boxB] cont300 = Some placedBA)
    as Hfit by (vm_compute; reflexivity).
  split; [exact Hfit|].
  exact (@check_fit_inside_container elements_order _ _ _ Hfit).
Defined.

Lemma check_fit_places_every_box_witness :
  @check_fit elements_order [boxA; boxB] cont300 = Some placedBA ∧
  (length placedBA = length [boxA; boxB] ∧
   pb_box <$> placedBA ≡ₚ [boxA; boxB]) ∧
  @check_fit elements_order [] cont300 = Some [].
Proof.
  assert (@check_fit elements_order [boxA; boxB] cont300 = Some placedBA)
    as Hfit by (vm_compute; reflexivity).
  split; [exact Hfit|]. split.
  - exact (proj1 (@check_fit_places_every_box elements_order cont300) _ _ Hfit).
  - exact (proj2 (@check_fit_places_every_box elements_order cont300)).
Defined.

Lemma check_fit_rejects_unfit_box_witness :
  boxC ∈ [boxA; boxC] ∧
  (∀ l w h, (l, w, h) ∈ permutations3 (box_dims boxC) →
            ¬ (l ≤ con_l cont300 ∧ w ≤ con_w cont300 ∧ h ≤ con_h cont300)) ∧
  (@quick_check elements_order (sort_by_volume [boxA; boxC]) cont300 = false ∧
   @check_fit elements_order [boxA; boxC] cont300 = None) ∧
  @check_fit_traced elements_order [boxA; boxC] cont300 = (None, []) ∧
  (∀ bs' c', fst (@check_fit_traced elements_order bs' c')
             = @check_fit elements_order bs' c') ∧
  (∀ bs' c', @quick_check elements_order (sort_by_volume bs') c' = true →
             snd (@check_fit_traced elements_order bs' c')
             = [PackCall (sort_by_volume bs') c' []]).
Proof.
  assert (boxC ∈ [boxA; boxC]) as Hin by (right; left).
  assert (∀ l w h, (l, w, h) ∈ permutations3 (box_dims boxC) →
            ¬ (l ≤ con_l cont300 ∧ w ≤ con_w cont300 ∧ h ≤ con_h cont300))
    as Hno.
  { intros l w h. simpl. rewrite !elem_of_cons, elem_of_nil.
    intros Hr. repeat destruct Hr as [Hr|Hr]; try done;
      injection Hr as -> -> ->; lia. }
  split; [exact Hin|]. split; [exact Hno|].
  exact (@check_fit_rejects_unfit_box elements_order _ _ _ Hin Hno).
Defined.

Lemma generate_containers_exact_witness :
  0 < 50 ∧
  let containers := @generate_containers elements_order 900 600 50 50 in
  (∀ c, c ∈ containers ↔
        admissible 900 600 50 50 c ∧
        con_volume c = con_l c * con_w c * con_h c) ∧
  NoDup containers ∧
  (∀ c1 c2, c1 ∈ containers → c2 ∈ containers →
            [con_l c1; con_w c1; con_h c1] ≡ₚ [con_l c2; con_w c2; con_h c2] →
            c1 = c2).
Proof.
  assert (0 < 50) as Hinc by lia.
  split; [exact Hinc|].
  exact (@generate_containers_exact elements_order 900 600 50 50 Hinc).
Defined.

Lemma generate_containers_break_is_optimisation_witness :
  0 < 50 ∧
  container_dims 900 (py_range 50 (600 + 1) 50)
  = container_dims_naive 900 (py_range 50 (600 + 1) 50) ∧
  @generate_containers elements_order 900 600 50 50
  = @generate_containers_naive elements_order 900 600 50 50.
Proof.
  assert (0 < 50) as Hinc by lia.
  split; [exact Hinc|].
  exact (@generate_containers_break_is_optimisation elements_order
           900 600 50 50 Hinc).
Defined.

Lemma no_containers_aborts_witness :
  (0 ≤ 0 ∧ @generate_containers elements_order 900 600 50 0 = []) ∧
  (@generate_containers elements_order 100 600 50 50 = [] ∧
   @run_packing elements_order 100 600 50 50 (FFinite 3) [boxA; boxB]
   = {| found_solutions := 0;
        successful_fits := [];
        history :=
          [Log "Starting packing process...";
           Log "Error: No valid containers generated with these rules."] |}).
Proof.
  assert (0 ≤ 0) as Hinc by lia.
  assert (@generate_containers elements_order 100 600 50 50 = []) as Hnil
    by (vm_compute; reflexivity).
  split; (split; [done|]).
  - exact (proj1 (@no_containers_aborts elements_order) 900 600 50 0 Hinc).
  - exact (proj2 (@no_containers_aborts elements_order) 100 600 50 50
             (FFinite 3) [boxA; boxB] Hnil).
Defined.

Lemma run_packing_at_least_two_witness :
  (length [boxA] < 2)%nat ∧
  let st := @run_packing elements_order 900 600 50 250 (FFinite 3) [boxA] in
  successful_fits st = [] ∧
  history st =
    [Log "Starting packing process...";
     Log (match @generate_containers elements_order 900 600 50 250 with
          | [] => "Error: No valid containers generated with these rules."
          | _ :: _ =>
              "Error: Need at least 2 valid boxes to run a combination check."
          end)].
Proof.
  assert (length [boxA] < 2)%nat as Hlen by (simpl; lia).
  split; [exact Hlen|].
  exact (proj2 (proj2 (@run_packing_at_least_two elements_order
                         900 600 50 250 (FFinite 3) [boxA])) Hlen).
Defined.

Lemma run_packing_weight_limit_witness :
  let st := @run_packing elements_order 900 600 50 250 (FFinite 3)
              [boxA; boxB; boxC] in
  fitAB ∈ successful_fits st ∧
  ∃ bs, bs ∈ subsets [boxA; boxB; boxC] ∧ pb_box <$> fit_boxes fitAB ≡ₚ bs ∧
        ¬ exceeds (total_weight bs) (FFinite 3) ∧
        ¬ exceeds (total_weight (pb_box <$> fit_boxes fitAB)) (FFinite 3).
Proof.
  intros st.
  assert (fitAB ∈ successful_fits st) as Hin.
  { assert (successful_fits st = [fitAB]) as -> by (vm_compute; reflexivity).
    left. }
  split; [exact Hin|].
  exact (proj1 (@run_packing_weight_limit elements_order 900 600 50 250
                  (FFinite 3) [boxA; boxB; boxC]) fitAB Hin).
Defined.

Lemma run_packing_first_fit_witness :
  let containers := @generate_containers elements_order 900 600 50 250 in
  ¬ exceeds (total_weight [boxA; boxB]) (FFinite 3) ∧
  match @outcome elements_order (FFinite 3) containers [boxA; boxB] with
  | Some (c, placed) =>
      ∃ pre post,
        surviving [boxA; boxB] containers = pre ++ c :: post ∧
        Forall (λ c', @check_fit elements_order [boxA; boxB] c' = None) pre ∧
        @check_fit elements_order [boxA; boxB] c = Some placed ∧
        @attempts elements_order (FFinite 3) containers [boxA; boxB]
        = pair [boxA; boxB] <$> (pre ++ [c])
  | None =>
      Forall (λ c', @check_fit elements_order [boxA; boxB] c' = None)
        (surviving [boxA; boxB] containers) ∧
      @attempts elements_order (FFinite 3) containers [boxA; boxB]
      = pair [boxA; boxB] <$> surviving [boxA; boxB] containers
  end.
Proof.
  intros containers.
  assert (¬ exceeds (total_weight [boxA; boxB]) (FFinite 3)) as Hw.
  { apply int_gt_float_false. vm_compute. reflexivity. }
  split; [exact Hw|].
  exact (proj2 (proj2 (proj2 (@run_packing_first_fit elements_order
                                900 600 50 250 (FFinite 3)
                                [boxA; boxB; boxC]))) [boxA; boxB] Hw).
Defined.


(** * Further properties of the packing logic *)

(** ** [check_overlap] *)

Lemma check_overlap_true (placed : list PlacedBox) (x y z l w h : Z) :
  check_overlap placed x y z l w h = true ↔
  Exists (λ p, overlaps p x y z l w h = true) placed.
Proof.
  induction placed as [|p placed IH]; simpl.
  - split; [done | by intros ?%Exists_nil].
  - rewrite Exists_cons. destruct (overlaps p x y z l w h); [|rewrite IH].
    + split; [by left | done].
    + split; [by right | by intros [?|?]].
Qed.

(** One axis: two intervals of positive length that the test of
    [check_overlap] does not separate have a common segment. *)
Lemma axis_not_separated (a1 a2 b1 b2 : Z) :
  a1 < a2 → b1 < b2 →
  (a2 <=? b1) || (a1 >=? b2) = false ↔ Z.max b1 a1 < Z.min b2 a2.
Proof. lia. Qed.

Lemma overlaps_true_share_volume (p n : PlacedBox) :
  positive_dims p → positive_dims n →
  overlaps p (pb_x n) (pb_y n) (pb_z n) (pb_l n) (pb_w n) (pb_h n) = true ↔
  share_volume p n.
Proof.
  intros (Hpl & Hpw & Hph) (Hnl & Hnw & Hnh). unfold overlaps, share_volume.
  pose proof (axis_not_separated (pb_x n) (pb_x n + pb_l n)
                (pb_x p) (pb_x p + pb_l p)) as Hx.
  pose proof (axis_not_separated (pb_y n) (pb_y n + pb_w n)
                (pb_y p) (pb_y p + pb_w p)) as Hy.
  pose proof (axis_not_separated (pb_z n) (pb_z n + pb_h n)
                (pb_z p) (pb_z p + pb_h p)) as Hz.
  rewrite <- Hx, <- Hy, <- Hz by lia. clear Hx Hy Hz.
  rewrite negb_true_iff.
  set (bx := (pb_x n + pb_l n <=? pb_x p) || (pb_x n >=? pb_x p + pb_l p)).
  set (by' := (pb_y n + pb_w n <=? pb_y p) || (pb_y n >=? pb_y p + pb_w p)).
  set (bz := (pb_z n + pb_h n <=? pb_z p) || (pb_z n >=? pb_z p + pb_h p)).
  destruct bx, by', bz; simpl; split; (done || by intros (? & ? & ?)).
Qed.

(** For boxes whose dimensions are all positive [check_overlap] is exact: it
    returns [True] if and only if the candidate shares a positive volume
    with one of the placed boxes. *)
Theorem check_overlap_exact (placed : list PlacedBox) (n : PlacedBox) :
  Forall positive_dims placed → positive_dims n →
  check_overlap placed (pb_x n) (pb_y n) (pb_z n) (pb_l n) (pb_w n) (pb_h n)
    = true ↔
  ∃ p, p ∈ placed ∧ share_volume p n.
Proof.
  intros Hall Hn. rewrite check_overlap_true, Exists_exists.
  rewrite Forall_forall in Hall.
  split; intros (p & Hp & Ho); exists p; (split; [done|]);
    by apply (overlaps_true_share_volume p n (Hall p Hp) Hn).
Qed.

(** The test of [check_overlap] does not depend on which of the two boxes is
    the candidate and which is the placed one. *)
Theorem overlaps_symmetric (p q : PlacedBox) :
  overlaps p (pb_x q) (pb_y q) (pb_z q) (pb_l q) (pb_w q) (pb_h q)
  = overlaps q (pb_x p) (pb_y p) (pb_z p) (pb_l p) (pb_w p) (pb_h p).
Proof.
  unfold overlaps. f_equal.
  apply eq_true_iff_eq. rewrite !orb_true_iff. lia.
Qed.

(** ** [pack_recursive_helper] *)

Lemma first_some_None {A B} (f : A → option B) (l : list A) :
  first_some f l = None ↔ Forall (λ x, f x = None) l.
Proof.
  induction l as [|x l IH]; simpl.
  - split; [constructor | done].
  - rewrite Forall_cons. destruct (f x); [|tauto].
    split; [done | by intros [? _]].
Qed.

(** A successful call keeps the boxes already placed, in place and in
    order, and appends one placed box for each box left, in the order of
    [boxes_left]. *)
Theorem pack_extends_placed `{SetOrder} (boxes : list Box) (c : Container)
    (placed res : list PlacedBox) :
  pack_recursive_helper boxes c placed = Some res →
  ∃ added, res = placed ++ added ∧ pb_box <$> added = boxes.
Proof.
  revert placed. induction boxes as [|b rest IH]; intros placed.
  - simpl. intros [= <-]. exists []. by rewrite app_nil_r.
  - intros (ax & ay & az & l & w & h & _ & _ & _ & _ & Hres)%pack_step.
    destruct (IH _ Hres) as (added & -> & Hadded).
    exists (mkPlacedBox b ax ay az l w h :: added).
    rewrite <- app_assoc. split; [done|]. rewrite fmap_cons. by f_equal.
Qed.

Lemma anchor_points_elem (placed : list PlacedBox) (a : triple) :
  a ∈ anchor_points placed →
  a = (0, 0, 0) ∨
  ∃ q, q ∈ placed ∧
       (a = (pb_x q + pb_l q, pb_y q, pb_z q) ∨
        a = (pb_x q, pb_y q + pb_w q, pb_z q) ∨
        a = (pb_x q, pb_y q, pb_z q + pb_h q)).
Proof.
  unfold anchor_points. rewrite elem_of_cons.
  intros [->|Ha]; [by left|right].
  apply list_elem_of_In, in_flat_map in Ha as (q & Hq%list_elem_of_In & Ha).
  apply list_elem_of_In in Ha. rewrite !elem_of_cons, elem_of_nil in Ha.
  exists q. split; [done | tauto].
Qed.

(** In a placement list returned by [check_fit] every box starts at the
    origin of the container or at a far corner of a box placed before it;
    the first box of a non-empty list starts at the origin. *)
Theorem check_fit_anchored `{SetOrder} (bs : list Box) (c : Container)
    (placed : list PlacedBox) :
  check_fit bs c = Some placed →
  (∀ i p, placed !! i = Some p →
          origin p = (0, 0, 0) ∨
          ∃ j q, (j < i)%nat ∧ placed !! j = Some q ∧ flush_against q p) ∧
  (∀ p, placed !! 0%nat = Some p → origin p = (0, 0, 0)).
Proof.
  intros [_ Hpack]%check_fit_Some.
  assert (∀ i p, placed !! i = Some p →
            origin p = (0, 0, 0) ∨
            ∃ j q, (j < i)%nat ∧ placed !! j = Some q ∧ flush_against q p)
    as Hanch.
  { apply (pack_invariant
             (λ pls, ∀ i p, pls !! i = Some p →
                origin p = (0, 0, 0) ∨
                ∃ j q, (j < i)%nat ∧ pls !! j = Some q ∧ flush_against q p) c)
      with (3 := Hpack).
    - intros pls b ax ay az l w h IH Ha _ _ _ i p Hi.
      apply lookup_snoc_Some in Hi as [[Hlt Hi]|[-> <-]].
      + destruct (IH i p Hi) as [?|(j & q & Hj & Hq & Hfl)]; [by left|right].
        exists j, q. split; [done|]. split; [|done].
        by apply lookup_app_l_Some.
      + apply anchor_points_elem in Ha as [Ha|(q & Hq & Ha)]; [by left|right].
        apply list_elem_of_lookup in Hq as (j & Hj).
        exists j, q. split; [by eapply lookup_lt_Some|].
        split; [by apply lookup_app_l_Some | exact Ha].
    - intros i p Hi. by rewrite lookup_nil in Hi. }
  split; [exact Hanch|].
  intros p Hp. destruct (Hanch 0%nat p Hp) as [?|(j & _ & Hj & _)]; [done|lia].
Qed.

(** ** Sorting: the order of the boxes and of the anchors *)

Lemma py_insert_sorted {A} (lt : A → A → bool) (R : relation A)
    `{!Transitive R} (x : A) (l : list A) :
  (∀ a b, lt a b = true → R a b) →
  (∀ a b, lt a b = false → R b a) →
  StronglySorted R l → StronglySorted R (py_insert lt x l).
Proof.
  intros Htrue Hfalse Hs. induction Hs as [|y l Hs IH Hy]; simpl.
  - repeat constructor.
  - destruct (lt y x) eqn:Hyx.
    + constructor; [exact IH|].
      rewrite py_insert_perm. constructor; [by apply Htrue | done].
    + assert (R x y) as Hxy by by apply Hfalse.
      constructor; [by constructor|].
      constructor; [done|].
      eapply Forall_impl; [exact Hy|]. intros z Hz. by trans y.
Qed.

Lemma py_sorted_sorted {A} (lt : A → A → bool) (R : relation A)
    `{!Transitive R} (l : list A) :
  (∀ a b, lt a b = true → R a b) →
  (∀ a b, lt a b = false → R b a) →
  StronglySorted R (py_sorted lt l).
Proof.
  intros Htrue Hfalse. induction l as [|x l IH]; simpl; [constructor|].
  by apply py_insert_sorted.
Qed.

Global Instance volume_ge_trans : Transitive volume_ge.
Proof. unfold volume_ge. intros a b c. lia. Qed.

Global Instance tuple_le_trans : Transitive tuple_le.
Proof. unfold tuple_le, tuple_lt. intros [[? ?] ?] [[? ?] ?] [[? ?] ?]. lia. Qed.

Global Instance tuple_le_antisymm : AntiSymm (=) tuple_le.
Proof.
  unfold tuple_le, tuple_lt. intros [[a1 a2] a3] [[b1 b2] b3] Hab Hba.
  assert (a1 = b1 ∧ a2 = b2 ∧ a3 = b3) as (-> & -> & ->) by lia. done.
Qed.

Lemma sort_by_volume_sorted `{SetOrder} (bs : list Box) :
  StronglySorted volume_ge (sort_by_volume bs).
Proof.
  unfold sort_by_volume. apply (py_sorted_sorted _ volume_ge);
    unfold volume_ge; intros a b.
  - rewrite N.ltb_lt. lia.
  - by rewrite N.ltb_ge.
Qed.

(** The placement list returned by [check_fit] lists the boxes in the order
    of the stable sort by volume: a box never comes before a box of larger
    volume. *)
Theorem check_fit_order `{SetOrder} (bs : list Box) (c : Container)
    (placed : list PlacedBox) :
  check_fit bs c = Some placed →
  pb_box <$> placed = sort_by_volume bs ∧
  StronglySorted volume_ge (pb_box <$> placed).
Proof.
  intros [_ Hpack%pack_places_boxes]%check_fit_Some. simpl in Hpack.
  rewrite Hpack. split; [done | apply sort_by_volume_sorted].
Qed.

Lemma unique_anchors_sorted `{SetOrder} (placed : list PlacedBox) :
  StronglySorted tuple_le (unique_anchors placed).
Proof.
  unfold unique_anchors. apply (py_sorted_sorted _ tuple_le).
  - unfold tuple_le, tuple_lt. intros [[? ?] ?] [[? ?] ?]. lia.
  - by unfold tuple_le.
Qed.

(** The list of anchors tried by [pack_recursive_helper] is in ascending
    order of tuples, has no duplicate, holds exactly the anchor points, and
    is the same list whatever the iteration order of the set it is built
    from. *)
Theorem unique_anchors_deterministic (order1 order2 : SetOrder)
    (placed : list PlacedBox) :
  @unique_anchors order1 placed = @unique_anchors order2 placed ∧
  StronglySorted tuple_le (@unique_anchors order1 placed) ∧
  NoDup (@unique_anchors order1 placed) ∧
  (∀ a, a ∈ @unique_anchors order1 placed ↔ a ∈ anchor_points placed).
Proof.
  split; [|split; [|split]].
  - apply (StronglySorted_unique tuple_le);
      [apply unique_anchors_sorted..|].
    unfold unique_anchors. by rewrite !py_sorted_perm, !set_iter_perm.
  - apply unique_anchors_sorted.
  - unfold unique_anchors. rewrite py_sorted_perm. apply NoDup_set_iter.
  - intros a. apply elem_of_unique_anchors.
Qed.

(** ** A single box *)

(** For a single box [check_fit] fails exactly when no rotation of the box
    is within the container; when it succeeds the box is at the origin, in
    a rotation that is within the container. *)
Theorem check_fit_single `{SetOrder} (b : Box) (c : Container) :
  (check_fit [b] c = None ↔ ¬ fits_rotated c b) ∧
  (∀ placed, check_fit [b] c = Some placed →
     ∃ l w h, placed = [mkPlacedBox b 0 0 0 l w h] ∧
              (l, w, h) ∈ permutations3 (box_dims b) ∧
              l ≤ con_l c ∧ w ≤ con_w c ∧ h ≤ con_h c).
Proof.
  split.
  - unfold check_fit, fits_rotated. simpl.
    destruct (can_fit_at_all c b) eqn:Hcan.
    + split; [|intros Hno; by apply can_fit_at_all_true in Hcan].
      intros Hnone Hfit. clear Hcan.
      destruct Hfit as (l & w & h & Hr & Hl & Hw & Hh).
      rewrite first_some_None, Forall_forall in Hnone.
      specialize (Hnone (0, 0, 0)).
      rewrite first_some_None, Forall_forall in Hnone.
      specialize (Hnone (proj2 (elem_of_unique_anchors [] _) ltac:(left))
                        (l, w, h) (proj2 (elem_of_rotations b _) Hr)).
      unfold try_place in Hnone. simpl in Hnone.
      destruct ((0 + l >? con_l c) || (0 + w >? con_w c)
                || (0 + h >? con_h c)) eqn:Hb; [lia | done].
    + split; [|done]. intros _ Hfit%can_fit_at_all_true. congruence.
  - intros placed [_ Hpack]%check_fit_Some.
    change (sort_by_volume [b]) with [b] in Hpack.
    apply pack_step in Hpack
      as (ax & ay & az & l & w & h & Ha & Hr & Hb & _ & Hres).
    apply list_elem_of_singleton in Ha as [= -> -> ->].
    simpl in Hres. injection Hres as <-.
    exists l, w, h. repeat split; (done || lia).
Qed.

(** ** The quick check *)

(** The quick check of [check_fit] passes exactly when every box of the
    input has a rotation within the container; [check_fit] then returns
    what the recursive search returns on the sorted boxes. *)
Theorem quick_check_exact `{SetOrder} (bs : list Box) (c : Container) :
  (quick_check (sort_by_volume bs) c = true ↔ Forall (fits_rotated c) bs) ∧
  (Forall (fits_rotated c) bs →
   check_fit bs c = pack_recursive_helper (sort_by_volume bs) c []).
Proof.
  assert (quick_check (sort_by_volume bs) c = true
          ↔ Forall (fits_rotated c) bs) as Hq.
  { rewrite quick_check_true. unfold sort_by_volume.
    rewrite py_sorted_perm. apply Forall_proper; [|done].
    intros b. apply can_fit_at_all_true. }
  split; [exact Hq|].
  intros Hall%Hq. unfold check_fit. by rewrite Hall.
Qed.

(** ** More on container generation *)

(** [generate_containers] returns the empty list exactly when the increment
    is not positive, or [max_dim] is below [min_dim], or [total_sum] is
    below three times [min_dim]. *)
Theorem generate_containers_empty `{SetOrder}
    (total_sum max_dim min_dim increment : Z) :
  generate_containers total_sum max_dim min_dim increment = [] ↔
  increment ≤ 0 ∨ max_dim < min_dim ∨ total_sum < 3 * min_dim.
Proof.
  destruct (Z.leb_spec increment 0) as [Hle|Hinc].
  { split; [by left|]. intros _. unfold generate_containers.
    destruct (Z.leb_spec increment 0); [done | lia]. }
  split.
  - intros Hnil.
    destruct (decide (min_dim ≤ max_dim ∧ 3 * min_dim ≤ total_sum))
      as [[Hmm Hsum]|]; [|lia].
    assert (container_of_dims (min_dim, min_dim, min_dim)
              ∈ generate_containers total_sum max_dim min_dim increment)
      as Hin.
    { apply elem_of_generate_containers; [done|]. simpl.
      assert (in_progression min_dim max_dim increment min_dim)
        by (exists 0; lia).
      unfold admissible. simpl. repeat split; (done || lia). }
    rewrite Hnil in Hin. by apply elem_of_nil in Hin.
  - intros Hor.
    destruct (generate_containers total_sum max_dim min_dim increment)
      as [|c cs] eqn:Hgen; [done|].
    assert (c ∈ generate_containers total_sum max_dim min_dim increment)
      as Hin by (rewrite Hgen; left).
    apply elem_of_generate_containers in Hin; [|done].
    destruct Hin as [(_ & (i & ? & ? & ?) & (j & ? & ? & ?)
                        & (k & ? & ? & ?) & ?) _]. nia.
Qed.

(** For a positive increment every dimension of a generated container lies
    between [min_dim] and [max_dim] and differs from [min_dim] by a multiple
    of the increment; it is a multiple of the increment when [min_dim]
    is. *)
Theorem generate_containers_dims `{SetOrder}
    (total_sum max_dim min_dim increment : Z) (c : Container) :
  0 < increment →
  c ∈ generate_containers total_sum max_dim min_dim increment →
  Forall (λ d, min_dim ≤ d ≤ max_dim ∧
               (d - min_dim) `mod` increment = 0 ∧
               (min_dim `mod` increment = 0 → d `mod` increment = 0))
         [con_l c; con_w c; con_h c].
Proof.
  intros Hinc [(_ & Hl & Hw & Hh & _) _]%elem_of_generate_containers; [|done].
  assert (∀ d, in_progression min_dim max_dim increment d →
               min_dim ≤ d ≤ max_dim ∧
               (d - min_dim) `mod` increment = 0 ∧
               (min_dim `mod` increment = 0 → d `mod` increment = 0)) as Hd.
  { intros d (i & Hi & -> & Hmax). split; [nia|]. split.
    - replace (min_dim + i * increment - min_dim) with (i * increment) by lia.
      apply Z.mod_mul. lia.
    - intros Hmod. rewrite Z.mod_add by lia. done. }
  rewrite !Forall_cons, Forall_nil.
  split; [by apply Hd|]. split; [by apply Hd|]. split; [by apply Hd | done].
Qed.

(** ** The subsets enumerated by the search *)

(** [itertools.combinations(l, k)] holds exactly the [k]-element
    subsequences of [l]. *)
Theorem combinations_sublists {A} (l : list A) (k : nat) (c : list A) :
  c ∈ combinations l k ↔ c `sublist_of` l ∧ length c = k.
Proof.
  revert k c. induction l as [|x l IH]; intros k c.
  - destruct k as [|k]; simpl.
    + rewrite list_elem_of_singleton, sublist_nil_r.
      split; [by intros -> | by intros [-> _]].
    + rewrite elem_of_nil, sublist_nil_r. split; [done|]. by intros [-> ?].
  - destruct k as [|k]; simpl.
    + rewrite list_elem_of_singleton. split.
      * intros ->. split; [apply sublist_nil_l | done].
      * intros [_ Hlen]. by destruct c.
    + rewrite elem_of_app, list_elem_of_fmap, sublist_cons_r. split.
      * intros [(c' & -> & [Hsub Hlen]%IH)|[Hsub Hlen]%IH].
        -- split; [right; by exists c' | simpl; by rewrite Hlen].
        -- split; [by left | done].
      * intros [[Hsub|(c' & -> & Hsub)] Hlen].
        -- right. by apply IH.
        -- left. exists c'. split; [done|]. apply IH.
           split; [done|]. simpl in Hlen. lia.
Qed.

(** ** The fits recorded by a run *)

Lemma check_fit_disjoint `{SetOrder} (bs : list Box) (c : Container)
    (placed : list PlacedBox) :
  check_fit bs c = Some placed → pairwise_disjoint placed.
Proof.
  intros [_ Hpack]%check_fit_Some.
  apply (pack_invariant pairwise_disjoint c) with (3 := Hpack).
  - intros pls b ax ay az l w h Hpd _ _ _ Ho.
    by apply pairwise_disjoint_snoc.
  - intros i j p q _ Hi. by rewrite lookup_nil in Hi.
Qed.

Lemma check_fit_all_inside `{SetOrder} (bs : list Box) (c : Container)
    (placed : list PlacedBox) :
  check_fit bs c = Some placed → Forall (inside c) placed.
Proof.
  intros [_ Hpack]%check_fit_Some.
  cut (Forall (λ p, inside c p ∧ oriented p) placed).
  { intros Hall. eapply Forall_impl; [exact Hall|]. by intros p [? _]. }
  apply (pack_invariant (Forall (λ p, inside c p ∧ oriented p)) c)
    with (3 := Hpack); [|constructor].
  intros pls b ax ay az l w h Hall Ha Hr Hb _.
  apply Forall_app. split; [done|]. apply Forall_singleton.
  split; [|exact Hr]. split; [|exact Hb]. simpl.
  apply (anchor_points_nonneg pls); [|done].
  eapply Forall_impl; [exact Hall|].
  intros p [[Ho _] Hp]. split; [done|].
  by apply (permutations3_nonneg (pb_box p)).
Qed.

Lemma subsets_sublist (input bs : list Box) :
  bs ∈ subsets input → bs `sublist_of` input.
Proof.
  intros (k & _ & Hbs)%elem_of_subsets.
  by apply combinations_sublists in Hbs as [? _].
Qed.

Lemma total_volume_perm (bs bs' : list Box) :
  bs ≡ₚ bs' → total_volume bs = total_volume bs'.
Proof.
  intros Hperm. unfold total_volume.
  apply (foldr_permutation (=) _ 0); [|done]. intros; lia.
Qed.

(** Every fit recorded by a run is a packing: its container is one of the
    generated containers, every placed box lies inside that container, and
    no two placed boxes share a positive volume. *)
Theorem run_packing_fits_are_packings `{SetOrder}
    (total_sum max_dim min_dim increment : Z) (max_weight : pyfloat)
    (input_boxes : list Box) (f : fit) :
  f ∈ successful_fits
        (run_packing total_sum max_dim min_dim increment max_weight
           input_boxes) →
  fit_container f
    ∈ generate_containers total_sum max_dim min_dim increment ∧
  Forall (inside (fit_container f)) (fit_boxes f) ∧
  pairwise_disjoint (fit_boxes f).
Proof.
  intros (bs & _ & _ & [_ Hc]%elem_of_surviving & Hfit)%run_packing_fit.
  split; [done|]. split.
  - by apply (check_fit_all_inside bs).
  - by apply (check_fit_disjoint bs (fit_container f)).
Qed.

(** The boxes of a fit recorded by a run are boxes of the input, each at
    most as often as it occurs there, and the sum of their volume fields
    does not exceed the volume of the container of the fit. *)
Theorem run_packing_fits_from_input `{SetOrder}
    (total_sum max_dim min_dim increment : Z) (max_weight : pyfloat)
    (input_boxes : list Box) (f : fit) :
  f ∈ successful_fits
        (run_packing total_sum max_dim min_dim increment max_weight
           input_boxes) →
  pb_box <$> fit_boxes f ⊆+ input_boxes ∧
  total_volume (pb_box <$> fit_boxes f) ≤ con_volume (fit_container f).
Proof.
  intros (bs & Hbs%subsets_sublist & _ & [Hvol _]%elem_of_surviving
             & Hfit)%run_packing_fit.
  destruct (check_fit_boxes _ _ _ Hfit) as [_ Hperm]. split.
  - rewrite Hperm. by apply sublist_submseteq.
  - by rewrite (total_volume_perm _ _ Hperm).
Qed.

Lemma total_weight_nonneg (bs : list Box) : 0 ≤ total_weight bs.
Proof. induction bs as [|b bs IH]; simpl; lia. Qed.

(** A weight limit that is negative, or minus infinity, rejects every
    subset: no fit is recorded and [check_fit] is never called.  A weight
    limit that is not a number rejects no subset, like plus infinity: the
    fits are the first fits of the subsets. *)
Theorem run_packing_weight_edge_cases `{SetOrder}
    (total_sum max_dim min_dim increment : Z) (input_boxes : list Box) :
  (∀ max_weight,
     (max_weight = FNegInf ∨ ∃ q, max_weight = FFinite q ∧ (q < 0)%Q) →
     let st := run_packing total_sum max_dim min_dim increment max_weight
                 input_boxes in
     successful_fits st = [] ∧ calls (history st) = []) ∧
  (∀ max_weight,
     (max_weight = FNaN ∨ max_weight = FPosInf) →
     fits (run_packing total_sum max_dim min_dim increment max_weight
             input_boxes)
     = omap (λ bs, first_fit bs (generate_containers total_sum max_dim
                                   min_dim increment))
            (subsets input_boxes)).
Proof.
  split.
  - intros mw Hmw st.
    assert (∀ bs, exceeds (total_weight bs) mw) as Hex.
    { intros bs. destruct Hmw as [->|(q & -> & Hq)]; [done|]. simpl.
      eapply Qlt_le_trans; [exact Hq|].
      change 0%Q with (inject_Z 0). rewrite <- Zle_Qle.
      apply total_weight_nonneg. }
    split.
    + destruct (successful_fits st) as [|f fs] eqn:Hfs; [done|].
      assert (f ∈ successful_fits st) as Hf by (rewrite Hfs; left).
      apply run_packing_fit in Hf as (bs & _ & Hw & _). by destruct Hw.
    + destruct (calls (history st)) as [|[bs c] cs] eqn:Hcs; [done|].
      assert ((bs, c) ∈ calls (history st)) as Hc by (rewrite Hcs; left).
      apply elem_of_calls, run_packing_call in Hc as (_ & Hw & _).
      by destruct Hw.
  - intros mw Hmw. rewrite run_packing_fits. unfold outcome.
    by destruct Hmw as [-> | ->].
Qed.


(** ** Numbering of the fits *)

Section SearchInvariant.
Context `{SetOrder}.
Variable P : state → Prop.
Hypothesis P_emit : ∀ st e, P st → P (emit e st).
Hypothesis P_fit_found :
  ∀ st bs c placed,
    P st → check_fit bs c = Some placed → P (fit_found bs c placed st).

Lemma container_loop_invariant (bs : list Box) (tv : Z)
    (cs : list Container) (st : state) :
  P st → P (container_loop bs tv cs st).
Proof.
  revert st. induction cs as [|c cs IH]; intros st HP; simpl; [done|].
  destruct (tv >? con_volume c); [by apply IH|].
  destruct (check_fit bs c) as [placed|] eqn:Hfit.
  - apply P_fit_found; [by apply P_emit | done].
  - by apply IH, P_emit.
Qed.

Lemma search_invariant (mw : pyfloat) (cs : list Container)
    (input : list Box) (st : state) :
  P st → P (search mw cs input st).
Proof.
  unfold search. generalize (seq 2 (length input + 1 - 2)). intros ks.
  revert st. induction ks as [|k ks IH]; intros st HP; simpl; [done|].
  apply IH. unfold k_step.
  assert (P (log ("--- Checking combinations of " +:+ pretty k
                  +:+ " boxes ---") st)) as HP' by by apply P_emit.
  revert HP'. generalize (log ("--- Checking combinations of " +:+ pretty k
                               +:+ " boxes ---") st).
  induction (combinations input k) as [|bs combos IHc]; intros st' HP';
    simpl; [done|].
  apply IHc. unfold combination_step.
  destruct (int_gt_float (total_weight bs) mw); [done|].
  by apply container_loop_invariant.
Qed.
End SearchInvariant.

Lemma search_numbered `{SetOrder} (mw : pyfloat) (cs : list Container)
    (input : list Box) (st : state) :
  numbered st → numbered (search mw cs input st).
Proof.
  apply search_invariant.
  - by intros st' e.
  - intros st' bs c placed [Hn Hnames] Hfit. split.
    + simpl. rewrite length_app. simpl. lia.
    + intros i f. simpl. intros [[_ Hi]|[-> <-]]%lookup_snoc_Some.
      * by apply Hnames.
      * exists bs. simpl. by rewrite <- Hn.
Qed.

(** When a run ends, the counter [found_solutions] is the number of fits
    recorded, the fit at position [i] (from 0) is named with the number
    [i + 1], the names of the boxes of its subset and the dimensions of its
    container, and, unless the run stopped on an error, the last line logged
    reports that number of fits. *)
Theorem run_packing_numbering `{SetOrder}
    (total_sum max_dim min_dim increment : Z) (max_weight : pyfloat)
    (input_boxes : list Box) :
  let st := run_packing total_sum max_dim min_dim increment max_weight
              input_boxes in
  found_solutions st = length (successful_fits st) ∧
  (∀ i f, successful_fits st !! i = Some f →
          ∃ bs, fit_name f = fit_label (S i) bs (fit_container f) ∧
                check_fit bs (fit_container f) = Some (fit_boxes f)) ∧
  (generate_containers total_sum max_dim min_dim increment ≠ [] →
   (2 ≤ length input_boxes)%nat →
   last (history st)
   = Some (Log ("Search complete. Found "
                +:+ pretty (length (successful_fits st))
                +:+ " valid packing solutions."))).
Proof.
  intros st. subst st. unfold run_packing.
  assert (numbered {| found_solutions := 0; successful_fits := [];
                      history := [] |}) as H0.
  { split; [done|]. intros i f Hi. simpl in Hi. by rewrite lookup_nil in Hi. }
  destruct (generate_containers total_sum max_dim min_dim increment)
    as [|c cs] eqn:Hgen.
  { destruct H0 as [? ?]. repeat split; try done. }
  destruct (Nat.ltb_spec (length input_boxes) 2) as [Hlt|Hge].
  { destruct H0 as [? ?]. repeat split; try done. lia. }
  match goal with
  | |- context [search ?mw ?cs' ?inp ?st0] =>
      pose proof (search_numbered mw cs' inp st0) as Hnum;
      set (st1 := search mw cs' inp st0) in *
  end.
  destruct Hnum as [Hn Hnames]; [exact H0|].
  split; [exact Hn|]. split; [exact Hnames|].
  intros _ _. simpl. rewrite last_snoc. by rewrite Hn.
Qed.

(** ** How many subsets the search goes through *)

Lemma length_combinations_0 {A} (l : list A) : length (combinations l 0) = 1%nat.
Proof. by destruct l. Qed.

Lemma length_combinations_1 {A} (l : list A) :
  length (combinations l 1) = length l.
Proof.
  induction l as [|x l IH]; simpl; [done|].
  by rewrite length_app, length_fmap, length_combinations_0, IH.
Qed.

Lemma count_combinations_cons {A} (x : A) (l : list A) (ks : list nat) :
  length (flat_map (combinations (x :: l)) (S <$> ks))
  = (length (flat_map (combinations l) ks)
     + length (flat_map (combinations l) (S <$> ks)))%nat.
Proof.
  induction ks as [|k ks IH]; [done|].
  rewrite !fmap_cons. cbn [flat_map]. rewrite !length_app, IH.
  cbn [combinations]. rewrite length_app, length_fmap. lia.
Qed.

Lemma count_combinations_nil {A} (ks : list nat) :
  flat_map (combinations (@nil A)) (S <$> ks) = [].
Proof. induction ks as [|k ks IH]; [done|]. by rewrite fmap_cons. Qed.

Lemma count_combinations_all {A} (l : list A) (m : nat) :
  (length l < m)%nat →
  length (flat_map (combinations l) (seq 0 m)) = (2 ^ length l)%nat.
Proof.
  revert m. induction l as [|x l IH]; intros [|m] Hm; try (simpl in Hm; lia).
  - rewrite <- cons_seq, <- fmap_S_seq. cbn [flat_map].
    by rewrite count_combinations_nil.
  - simpl in Hm.
    pose proof (IH m ltac:(lia)) as IHm.
    pose proof (IH (S m) ltac:(lia)) as IHSm.
    rewrite <- cons_seq, <- fmap_S_seq in IHSm |- *.
    cbn [flat_map] in IHSm |- *.
    rewrite length_app, length_combinations_0 in IHSm |- *.
    rewrite count_combinations_cons.
    change (length (x :: l)) with (S (length l)).
    rewrite Nat.pow_succ_r'. lia.
Qed.

Lemma length_omap_le {A B} (f : A → option B) (l : list A) :
  (length (omap f l) ≤ length l)%nat.
Proof.
  induction l as [|x l IH]; [done|].
  change (omap f (x :: l))
    with (match f x with Some y => y :: omap f l | None => omap f l end).
  destruct (f x); simpl; lia.
Qed.

(** The fits recorded by a run are the outcomes, and the calls of
    [check_fit] the attempts, of the subsets the two outer loops go
    through, taken in order: each subset gives its outcome, one fit or
    none.  With [n] boxes these subsets are [2^n - n - 1] (all but the
    empty one and the [n] of one box). *)
Theorem run_packing_subset_count `{SetOrder}
    (total_sum max_dim min_dim increment : Z) (max_weight : pyfloat)
    (input_boxes : list Box) :
  let containers := generate_containers total_sum max_dim min_dim increment in
  let st := run_packing total_sum max_dim min_dim increment max_weight
              input_boxes in
  let enumerated := subsets input_boxes in
  fits st = omap (outcome max_weight containers) enumerated ∧
  calls (history st)
  = flat_map (attempts max_weight containers) enumerated ∧
  (∀ bs, bs ∈ enumerated ↔
         bs `sublist_of` input_boxes ∧ (2 ≤ length bs)%nat) ∧
  (length enumerated + length input_boxes + 1
   = 2 ^ length input_boxes)%nat ∧
  (length (successful_fits st) ≤ length enumerated)%nat.
Proof.
  intros containers st enumerated. subst enumerated.
  split; [apply run_packing_fits|]. split; [apply run_packing_calls|].
  split; [|split].
  - intros bs. rewrite elem_of_subsets. split.
    + intros (k & Hk & [Hsub Hlen]%combinations_sublists).
      split; [done | lia].
    + intros [Hsub Hlen]. exists (length bs). split.
      * split; [done | by apply sublist_length].
      * by apply combinations_sublists.
  - pose proof (count_combinations_all input_boxes
                  (S (length input_boxes)) ltac:(lia)) as Hall.
    unfold subsets. destruct input_boxes as [|b bs]; [done|].
    change (length (b :: bs)) with (S (length bs)) in *.
    replace (S (length bs) + 1 - 2)%nat with (length bs) by lia.
    rewrite <- !cons_seq in Hall. cbn [flat_map] in Hall.
    rewrite !length_app, length_combinations_0, length_combinations_1
      in Hall.
    change (length (b :: bs)) with (S (length bs)) in Hall. lia.
  - rewrite <- (length_fmap (λ f, (fit_container f, fit_boxes f))).
    change (length (fits st) ≤ length (subsets input_boxes))%nat.
    subst st. rewrite run_packing_fits. apply length_omap_le.
Qed.

(** ** The further properties at concrete inputs *)

Lemma check_overlap_exact_witness :
  Forall positive_dims [placedB] ∧ positive_dims placedA ∧
  (check_overlap [placedB] (pb_x placedA) (pb_y placedA) (pb_z placedA)
     (pb_l placedA) (pb_w placedA) (pb_h placedA) = true ↔
   ∃ p, p ∈ [placedB] ∧ share_volume p placedA).
Proof.
  assert (positive_dims placedB) as HB by (unfold positive_dims; simpl; lia).
  assert (positive_dims placedA) as HA by (unfold positive_dims; simpl; lia).
  assert (Forall positive_dims [placedB]) as Hall by by constructor.
  split; [exact Hall|]. split; [exact HA|].
  exact (check_overlap_exact [placedB] placedA Hall HA).
Defined.

Lemma pack_extends_placed_witness :
  @pack_recursive_helper elements_order [boxA] cont300 [placedB]
  = Some placedBA ∧
  ∃ added, placedBA = [placedB] ++ added ∧ pb_box <$> added = [boxA].
Proof.
  assert (@pack_recursive_helper elements_order [boxA] cont300 [placedB]
          = Some placedBA) as Hpack by (vm_compute; reflexivity).
  split; [exact Hpack|].
  exact (@pack_extends_placed elements_order _ _ _ _ Hpack).
Defined.

Lemma check_fit_anchored_witness :
  @check_fit elements_order [boxA; boxB] cont300 = Some placedBA ∧
  (∀ i p, placedBA !! i = Some p →
          origin p = (0, 0, 0) ∨
          ∃ j q, (j < i)%nat ∧ placedBA !! j = Some q ∧ flush_against q p) ∧
  (∀ p, placedBA !! 0%nat = Some p → origin p = (0, 0, 0)).
Proof.
  assert (@check_fit elements_order [boxA; boxB] cont300 = Some placedBA)
    as Hfit by (vm_compute; reflexivity).
  split; [exact Hfit|].
  exact (@check_fit_anchored elements_order _ _ _ Hfit).
Defined.

Lemma check_fit_order_witness :
  @check_fit elements_order [boxA; boxB] cont300 = Some placedBA ∧
  pb_box <$> placedBA = sort_by_volume [boxA; boxB] ∧
  StronglySorted volume_ge (pb_box <$> placedBA).
Proof.
  assert (@check_fit elements_order [boxA; boxB] cont300 = Some placedBA)
    as Hfit by (vm_compute; reflexivity).
  split; [exact Hfit|].
  exact (@check_fit_order elements_order _ _ _ Hfit).
Defined.

Lemma check_fit_single_witness :
  @check_fit elements_order [boxA] cont300
  = Some [mkPlacedBox boxA 0 0 0 100 100 100] ∧
  ∃ l w h, [mkPlacedBox boxA 0 0 0 100 100 100]
           = [mkPlacedBox boxA 0 0 0 l w h] ∧
           (l, w, h) ∈ permutations3 (box_dims boxA) ∧
           l ≤ con_l cont300 ∧ w ≤ con_w cont300 ∧ h ≤ con_h cont300.
Proof.
  assert (@check_fit elements_order [boxA] cont300
          = Some [mkPlacedBox boxA 0 0 0 100 100 100]) as Hfit
    by (vm_compute; reflexivity).
  split; [exact Hfit|].
  exact (proj2 (@check_fit_single elements_order boxA cont300) _ Hfit).
Defined.

Lemma quick_check_exact_witness :
  Forall (fits_rotated cont300) [boxA; boxB] ∧
  @check_fit elements_order [boxA; boxB] cont300
  = @pack_recursive_helper elements_order
      (sort_by_volume [boxA; boxB]) cont300 [].
Proof.
  assert (@quick_check elements_order
            (sort_by_volume [boxA; boxB]) cont300 = true)
    as Hq by (vm_compute; reflexivity).
  pose proof (proj1 (proj1 (@quick_check_exact elements_order
                              [boxA; boxB] cont300)) Hq) as Hall.
  split; [exact Hall|].
  exact (proj2 (@quick_check_exact elements_order [boxA; boxB] cont300) Hall).
Defined.

Lemma generate_containers_dims_witness :
  0 < 50 ∧
  cont300 ∈ @generate_containers elements_order 900 600 50 50 ∧
  Forall (λ d, 50 ≤ d ≤ 600 ∧ (d - 50) `mod` 50 = 0 ∧
               (50 `mod` 50 = 0 → d `mod` 50 = 0))
         [con_l cont300; con_w cont300; con_h cont300].
Proof.
  assert (0 < 50) as Hinc by lia.
  assert (cont300 ∈ @generate_containers elements_order 900 600 50 50)
    as Hin.
  { apply elem_of_generate_containers; [done|].
    assert (in_progression 50 600 50 300) by (exists 5; lia).
    unfold admissible. simpl. repeat split; (done || lia). }
  split; [exact Hinc|]. split; [exact Hin|].
  exact (@generate_containers_dims elements_order 900 600 50 50 cont300
           Hinc Hin).
Defined.

Lemma run_packing_fits_are_packings_witness :
  fitAB ∈ successful_fits
            (@run_packing elements_order 900 600 50 250 (FFinite 3)
               [boxA; boxB; boxC]) ∧
  fit_container fitAB ∈ @generate_containers elements_order 900 600 50 250 ∧
  Forall (inside (fit_container fitAB)) (fit_boxes fitAB) ∧
  pairwise_disjoint (fit_boxes fitAB).
Proof.
  assert (fitAB ∈ successful_fits
            (@run_packing elements_order 900 600 50 250 (FFinite 3)
               [boxA; boxB; boxC])) as Hin.
  { assert (successful_fits
              (@run_packing elements_order 900 600 50 250 (FFinite 3)
                 [boxA; boxB; boxC]) = [fitAB]) as ->
      by (vm_compute; reflexivity).
    left. }
  split; [exact Hin|].
  exact (@run_packing_fits_are_packings elements_order 900 600 50 250
           (FFinite 3) [boxA; boxB; boxC] fitAB Hin).
Defined.

Lemma run_packing_fits_from_input_witness :
  fitAB ∈ successful_fits
            (@run_packing elements_order 900 600 50 250 (FFinite 3)
               [boxA; boxB; boxC]) ∧
  pb_box <$> fit_boxes fitAB ⊆+ [boxA; boxB; boxC] ∧
  total_volume (pb_box <$> fit_boxes fitAB) ≤ con_volume (fit_container fitAB).
Proof.
  assert (fitAB ∈ successful_fits
            (@run_packing elements_order 900 600 50 250 (FFinite 3)
               [boxA; boxB; boxC])) as Hin.
  { assert (successful_fits
              (@run_packing elements_order 900 600 50 250 (FFinite 3)
                 [boxA; boxB; boxC]) = [fitAB]) as ->
      by (vm_compute; reflexivity).
    left. }
  split; [exact Hin|].
  exact (@run_packing_fits_from_input elements_order 900 600 50 250
           (FFinite 3) [boxA; boxB; boxC] fitAB Hin).
Defined.

Lemma run_packing_weight_edge_cases_witness :
  (let st := @run_packing elements_order 900 600 50 250 (FFinite (-1))
               [boxA; boxB; boxC] in
   successful_fits st = [] ∧ calls (history st) = []) ∧
  fits (@run_packing elements_order 900 600 50 250 FNaN [boxA; boxB; boxC])
  = omap (λ bs, @first_fit elements_order bs
                  (@generate_containers elements_order 900 600 50 250))
         (subsets [boxA; boxB; boxC]).
Proof.
  assert (FFinite (-1) = FNegInf
          ∨ ∃ q, FFinite (-1) = FFinite q ∧ (q < 0)%Q) as Hneg.
  { right. exists (-1)%Q. split; [reflexivity|]. reflexivity. }
  assert (FNaN = FNaN ∨ FNaN = FPosInf) as Hnan by (left; reflexivity).
  split.
  - exact (proj1 (@run_packing_weight_edge_cases elements_order
                    900 600 50 250 [boxA; boxB; boxC]) _ Hneg).
  - exact (proj2 (@run_packing_weight_edge_cases elements_order
                    900 600 50 250 [boxA; boxB; boxC]) _ Hnan).
Defined.

Lemma run_packing_numbering_witness :
  let st := @run_packing elements_order 900 600 50 250 (FFinite 3)
              [boxA; boxB; boxC] in
  successful_fits st !! 0%nat = Some fitAB ∧
  (∃ bs, fit_name fitAB = fit_label 1 bs (fit_container fitAB) ∧
         @check_fit elements_order bs (fit_container fitAB)
         = Some (fit_boxes fitAB)) ∧
  last (history st)
  = Some (Log ("Search complete. Found "
               +:+ pretty (length (successful_fits st))
               +:+ " valid packing solutions.")).
Proof.
  intros st.
  assert (successful_fits st !! 0%nat = Some fitAB) as Hfit
    by (vm_compute; reflexivity).
  assert (@generate_containers elements_order 900 600 50 250 ≠ []) as Hgen
    by (vm_compute; discriminate).
  assert (2 ≤ length [boxA; boxB; boxC])%nat as Hlen by (simpl; lia).
  pose proof (@run_packing_numbering elements_order 900 600 50 250
                (FFinite 3) [boxA; boxB; boxC]) as (_ & Hnames & Hlast).
  split; [exact Hfit|]. split.
  - exact (Hnames 0%nat fitAB Hfit).
  - exact (Hlast Hgen Hlen).
Defined.
